(** * Smart fire detection backend: a shallow embedding of [app.py]

    The development follows the layout of the Flask backend:
    - Python values as the handlers see them (JSON payloads, binary64
      floats, unbounded integers) and the builtins the handlers call;
    - the [sensor_readings] table and the two kinds of statement run on it;
    - the classifier ([rule_predict], [ml_predict]) and the process-wide
      model globals;
    - the route handlers ([receive_sensor_data], [get_latest], [get_stats],
      [manual_predict]);
    - the properties of the ingestion / classification / aggregation core. *)

From Stdlib Require Import ZArith Ascii String Lia.
From Stdlib Require Import Floats.SpecFloat.
From stdpp Require Import base option list sorting gmap strings pretty.

#[local] Set Warnings "-register-all,-clear-no-such-hyp".
#[local] Open Scope Z_scope.

(** ** Python values *)

(** A Python [float] is an IEEE 754 binary64 value. *)
Definition float : Type := spec_float.
Definition prec : Z := 53.
Definition emax : Z := 1024.

(** Exceptions the modelled code can raise.  [ModelError] stands for whatever
    a loaded scikit-learn artifact raises from inside its own methods. *)
Inductive exn : Type :=
| TypeError
| ValueError
| OverflowError
| ZeroDivisionError
| AttributeError
| KeyError
| IntegrityError
| OperationalError
| BindError
| UnicodeEncodeError
| ModelError (msg : string).

(** The outcome of evaluating Python code: a value, or a raised exception. *)
Inductive result (A : Type) : Type :=
| Ok (a : A)
| Raise (e : exn).
Arguments Ok {A} a.
Arguments Raise {A} e.

#[global] Instance result_ret : MRet result := λ A, Ok.
#[global] Instance result_bind : MBind result :=
  λ A B f m, match m with Ok a => f a | Raise e => Raise e end.

(** What [request.get_json] returns, and what [jsonify] consumes. *)
Inductive pyval : Type :=
| PNone
| PBool (b : bool)
| PInt (z : Z)
| PFloat (f : float)
| PStr (s : string)
| PList (l : list pyval)
| PDict (d : gmap string pyval).

(** Truth value testing ([if x:], [not x], [x or y]). *)
Definition py_truthy (v : pyval) : bool :=
  match v with
  | PNone => false
  | PBool b => b
  | PInt z => negb (z =? 0)
  | PFloat (S754_zero _) => false
  | PFloat _ => true
  | PStr s => negb (String.eqb s "")
  | PList l => match l with [] => false | _ :: _ => true end
  | PDict d => negb (Nat.eqb (size d) 0)
  end.

(** [float(n)] for an [int]: round to nearest even, [OverflowError] when the
    integer is beyond the binary64 range. *)
Definition float_of_int (z : Z) : result float :=
  match binary_normalize prec emax z 0 false with
  | S754_infinity _ => Raise OverflowError
  | f => Ok f
  end.

(** [int(x)] for a [float]: truncation toward zero. *)
Definition int_of_float (f : float) : result Z :=
  match f with
  | S754_nan => Raise ValueError
  | S754_infinity _ => Raise OverflowError
  | S754_zero _ => Ok 0
  | S754_finite s m e => Ok (cond_Zopp s (Z.shiftl (Z.pos m) e))
  end.

(** [x >= n] for a [float] [x] and an [int] [n].  Python compares the two
    exactly (no rounding of [n]); any comparison with NaN is false. *)
Definition float_ge_int (x : float) (n : Z) : bool :=
  match x with
  | S754_nan => false
  | S754_infinity s => negb s
  | S754_zero _ => 0 >=? n
  | S754_finite s m e =>
      if 0 <=? e then cond_Zopp s (Z.pos m * 2 ^ e) >=? n
      else cond_Zopp s (Z.pos m) >=? n * 2 ^ (- e)
  end.

(** [x > y] on floats, as [max] uses it. *)
Definition float_gt (x y : float) : bool := SFltb y x.

(** [needle in hay] for two strings. *)
Fixpoint str_contains (needle hay : string) : bool :=
  String.prefix needle hay
  || match hay with
     | EmptyString => false
     | String _ rest => str_contains needle rest
     end.

(** [field in data] for a string [field]. *)
Definition py_contains (field : string) (data : pyval) : result bool :=
  match data with
  | PDict d => Ok (bool_decide (is_Some (d !! field)))
  | PList l =>
      Ok (existsb (λ v, match v with PStr s => String.eqb s field | _ => false end) l)
  | PStr s => Ok (str_contains field s)
  | PNone | PBool _ | PInt _ | PFloat _ => Raise TypeError
  end.

(** [data[field]] for a string [field]. *)
Definition py_getitem (data : pyval) (field : string) : result pyval :=
  match data with
  | PDict d => match d !! field with Some v => Ok v | None => Raise KeyError end
  | _ => Raise TypeError
  end.

(** [data.get(key, dflt)]: only a dict has the method. *)
Definition py_get (data : pyval) (key : string) (dflt : pyval) : result pyval :=
  match data with
  | PDict d => Ok (default dflt (d !! key))
  | _ => Raise AttributeError
  end.

(** The parts of the Python runtime that the repository only calls: parsing
    of numeric strings, decimal rounding, summation and true division. *)
Class PyRuntime : Type := {
  (** [float(s)] for a [str]; [None] is [ValueError] *)
  float_of_str : string → option float;
  (** [int(s)] for a [str]; [None] is [ValueError] *)
  int_of_str : string → option Z;
  (** [round(x, ndigits)] *)
  py_round : float → Z → float;
  (** [sum(xs)] over floats *)
  float_sum : list float → float;
  (** [a / b] for two ints *)
  int_truediv : Z → Z → result float;
  (** the text SQLite stores for a number bound to a TEXT column *)
  sqlite_num_text : pyval → string
}.

Section Backend.
Context {rt : PyRuntime}.

(** [float(v)], the builtin applied to a JSON value. *)
Definition py_float (v : pyval) : result float :=
  match v with
  | PFloat f => Ok f
  | PInt z => float_of_int z
  | PBool b => float_of_int (if b then 1 else 0)
  | PStr s => match float_of_str s with Some f => Ok f | None => Raise ValueError end
  | PNone | PList _ | PDict _ => Raise TypeError
  end.

(** [int(v)], the builtin applied to a JSON value. *)
Definition py_int (v : pyval) : result Z :=
  match v with
  | PInt z => Ok z
  | PBool b => Ok (if b then 1 else 0)
  | PFloat f => int_of_float f
  | PStr s => match int_of_str s with Some z => Ok z | None => Raise ValueError end
  | PNone | PList _ | PDict _ => Raise TypeError
  end.

(** ** The [sensor_readings] table *)

Record Row : Type := mkRow {
  row_id : Z;
  row_device_id : string;
  row_timestamp : string;
  row_temperature : float;
  row_smoke : Z;
  row_gas : Z;
  row_risk_level : string;
  row_risk_code : Z
}.

(** The committed rows, in insertion order. *)
Definition Db : Type := list Row.

Definition row_to_dict (row : Row) : pyval :=
  PDict (list_to_map [
    ("id", PInt (row_id row));
    ("device_id", PStr (row_device_id row));
    ("timestamp", PStr (row_timestamp row));
    ("temperature", PFloat (row_temperature row));
    ("smoke", PInt (row_smoke row));
    ("gas", PInt (row_gas row));
    ("risk_level", PStr (row_risk_level row));
    ("risk_code", PInt (row_risk_code row))]).

(** SQLite integers are 64-bit: binding a larger Python [int] raises. *)
Definition int64_ok (z : Z) : bool := (- 2 ^ 63 <=? z) && (z <=? 2 ^ 63 - 1).

Definition bind_int (z : Z) : result Z :=
  if int64_ok z then Ok z else Raise OverflowError.

(** A [str] is held as its UTF-8 bytes, the form in which SQLite stores and
    compares it.  A lone surrogate, which a JSON escape such as [\ud800]
    leaves in a Python [str], has no UTF-8 encoding; it is held as the three
    bytes that [surrogatepass] writes for it: [0xED], then a byte from [0xA0]
    up.  (In UTF-8 proper [0xED] is followed by a byte below [0xA0].) *)
Fixpoint has_lone_surrogate (s : string) : bool :=
  match s with
  | String c rest =>
      match rest with
      | String c' _ =>
          (N_of_ascii c =? 237)%N && (160 <=? N_of_ascii c')%N
          || has_lone_surrogate rest
      | EmptyString => false
      end
  | EmptyString => false
  end.

(** Binding a [str]: it is encoded to UTF-8, which a lone surrogate makes
    fail. *)
Definition bind_text (s : string) : result string :=
  if has_lone_surrogate s then Raise UnicodeEncodeError else Ok s.

(** Binding [data["device_id"]], whatever JSON value it is, to the TEXT
    column: [None] and NaN become NULL, numbers are stored as their text,
    lists and dicts cannot be bound. *)
Definition bind_device (v : pyval) : result (option string) :=
  match v with
  | PNone => Ok None
  | PBool b => Ok (Some (sqlite_num_text (PInt (if b then 1 else 0))))
  | PInt z => z' ← bind_int z; Ok (Some (sqlite_num_text (PInt z')))
  | PFloat S754_nan => Ok None
  | PFloat f => Ok (Some (sqlite_num_text (PFloat f)))
  | PStr s => s' ← bind_text s; Ok (Some s')
  | PList _ | PDict _ => Raise BindError
  end.

(** What a REAL column gives back for a float stored in it: a float that is
    a whole number is kept as an integer and converted back on reading,
    which loses the sign of [-0.0] and nothing else. *)
Definition sqlite_real (x : float) : float :=
  match x with
  | S754_zero _ => S754_zero false
  | _ => x
  end.

(** [INTEGER PRIMARY KEY AUTOINCREMENT]: one more than the largest id. *)
Definition next_rowid (db : Db) : Z := foldr Z.max 0 (row_id <$> db) + 1.

(** [INSERT INTO sensor_readings (...) VALUES (?, ?, ?, ?, ?, ?, ?)] followed
    by [commit]: the parameters are bound in order (the timestamp is ASCII,
    and a float always binds, NaN as NULL); then the row id is assigned,
    which fails when the ids are exhausted; then the [NOT NULL] constraints
    are checked. *)
Definition insert_reading (db : Db) (device_id : pyval) (ts : string)
    (temp : float) (smoke gas : Z) (label : string) (code : Z) : result Db :=
  dev ← bind_device device_id;
  smoke' ← bind_int smoke;
  gas' ← bind_int gas;
  label' ← bind_text label;
  code' ← bind_int code;
  let rowid := next_rowid db in
  if int64_ok rowid
  then match dev, temp with
       | None, _ => Raise IntegrityError
       | Some _, S754_nan => Raise IntegrityError
       | Some d, _ =>
           Ok (db ++ [mkRow rowid d ts (sqlite_real temp) smoke' gas' label' code'])
       end
  else Raise OperationalError.

(** [ORDER BY id DESC] *)
Definition by_id_desc (r1 r2 : Row) : Prop := row_id r2 ≤ row_id r1.

#[global] Instance by_id_desc_dec r1 r2 : Decision (by_id_desc r1 r2).
Proof. unfold by_id_desc. apply _. Defined.

(** [LIMIT ?]: a negative limit means no limit. *)
Definition sql_limit {A : Type} (limit : Z) (rows : list A) : list A :=
  if limit <? 0 then rows else take (Z.to_nat limit) rows.

(** [SELECT * FROM sensor_readings [WHERE device_id=?] ORDER BY id DESC LIMIT ?] *)
Definition select_latest (db : Db) (device : option string) (limit : Z) : list Row :=
  let matching :=
    match device with
    | Some d => filter (λ r, row_device_id r = d) db
    | None => db
    end in
  sql_limit limit (merge_sort by_id_desc matching).

(** [SELECT COUNT( * ) FROM sensor_readings WHERE risk_level=?] *)
Definition count_risk (db : Db) (level : string) : Z :=
  Z.of_nat (length (filter (λ r, row_risk_level r = level) db)).

(** [SELECT temperature, smoke, gas FROM sensor_readings WHERE timestamp >= ?]:
    timestamps are ISO 8601 texts, compared as texts. *)
Definition select_since (db : Db) (cutoff : string) : list (float * Z * Z) :=
  (λ r, (row_temperature r, row_smoke r, row_gas r))
    <$> filter (λ r, String.leb cutoff (row_timestamp r) = true) db.

(** ** Route handlers run against the store

    A handler maps the committed store to an outcome and the store it leaves
    behind.  An exception that escapes a handler ends the request. *)
Definition handler (A : Type) : Type := Db → result A * Db.

Definition h_ret {A : Type} (a : A) : handler A := λ db, (Ok a, db).

Definition h_bind {A B : Type} (m : handler A) (f : A → handler B) : handler B :=
  λ db, match m db with
        | (Ok a, db') => f a db'
        | (Raise e, db') => (Raise e, db')
        end.

(** Code that does not touch the store. *)
Definition lift {A : Type} (r : result A) : handler A := λ db, (r, db).

(** [get_db()] read through a [SELECT]. *)
Definition db_read : handler Db := λ db, (Ok db, db).

(** [db.execute("INSERT ...", params); db.commit()] *)
Definition db_insert (device_id : pyval) (ts : string) (temp : float)
    (smoke gas : Z) (label : string) (code : Z) : handler unit :=
  λ db, match insert_reading db device_id ts temp smoke gas label code with
        | Ok db' => (Ok (), db')
        | Raise e => (Raise e, db)
        end.

End Backend.

Notation "x ←ₕ m ; k" := (h_bind m (λ x, k))
  (at level 20, m at level 100, k at level 200, only parsing, right associativity).
Notation "' x ←ₕ m ; k" := (h_bind m (λ x, k))
  (at level 20, x pattern, m at level 100, k at level 200, only parsing, right associativity).

(** ** The classifier *)

(** One row of features, [[temperature, smoke, gas]], as a float array. *)
Definition features : Type := list float.

(** The three joblib artifacts: opaque objects of which the backend only
    calls methods.  [predict x] is [int(predictor.predict(x)[0])],
    [predict_proba x] is [predictor.predict_proba(x)[0].tolist()] and
    [inverse_transform c] is [label_enc.inverse_transform([c])[0]]. *)
Record Predictor : Type := {
  predict : features → result Z;
  predict_proba : features → result (list float)
}.

Record Scaler : Type := {
  transform : features → result features
}.

Record LabelEncoder : Type := {
  inverse_transform : Z → result string;
  classes_ : list string
}.

(** The module-level globals [predictor], [scaler], [label_enc], [model_meta]. *)
Record Globals : Type := {
  predictor : option Predictor;
  scaler : option Scaler;
  label_enc : option LabelEncoder;
  model_meta : gmap string pyval
}.

(** The globals as the module initialises them, before [load_model]. *)
Definition initial_globals : Globals :=
  {| predictor := None; scaler := None; label_enc := None; model_meta := ∅ |}.

Definition classification : Type := string * Z * option (list float).

(** The severity score [rule_predict] accumulates. *)
Definition rule_score (temperature : float) (smoke gas : Z) : Z :=
  let score := 0 in
  let score :=
    if float_ge_int temperature 60 then score + 2
    else if float_ge_int temperature 45 then score + 1
    else score in
  let score :=
    if smoke >=? 500 then score + 2
    else if smoke >=? 300 then score + 1
    else score in
  let score :=
    if gas >=? 700 then score + 2
    else if gas >=? 400 then score + 1
    else score in
  score.

Definition rule_predict (temperature : float) (smoke gas : Z) : classification :=
  let score := rule_score temperature smoke gas in
  if score <=? 1 then ("LOW", 0, None)
  else if score <=? 3 then ("MEDIUM", 1, None)
  else ("HIGH", 2, None).

Definition RISK_CODES : gmap string Z :=
  list_to_map [("LOW", 0); ("MEDIUM", 1); ("HIGH", 2)].

(** [np.array([[temperature, smoke, gas]], dtype=float)] *)
Definition np_array_float (temperature : float) (smoke gas : Z) : result features :=
  s ← float_of_int smoke;
  g ← float_of_int gas;
  Ok [temperature; s; g].

(** A method call on a global that may still be [None]. *)
Definition attr {A B : Type} (obj : option A) (call : A → result B) : result B :=
  match obj with
  | Some o => call o
  | None => Raise AttributeError
  end.

Definition ml_predict (g : Globals) (temperature : float) (smoke gas : Z)
    : result classification :=
  match predictor g with
  | None => Ok (rule_predict temperature smoke gas)
  | Some p =>
      feat ← np_array_float temperature smoke gas;
      feat_sc ←
        (if py_truthy (default PNone (model_meta g !! "use_scaled"))
         then attr (scaler g) (λ sc, transform sc feat)
         else Ok feat);
      enc_code ← predict p feat_sc;
      proba ← predict_proba p feat_sc;
      label ← attr (label_enc g) (λ le, inverse_transform le enc_code);
      let code := default 0 (RISK_CODES !! label) in
      Ok (label, code, Some proba)
  end.

(** ** Routes *)

(** What a route returns: the HTTP status and the [jsonify]-ed body. *)
Record response : Type := mkResponse {
  status_code : Z;
  body : pyval
}.

Definition error_body (msg : string) : pyval :=
  PDict (list_to_map [("error", PStr msg)]).

Section Routes.
Context {rt : PyRuntime}.

(** [for field in fields: if field not in data: return ...]: the first field
    the loop reports, if any. *)
Fixpoint first_missing (fields : list string) (data : pyval) : result (option string) :=
  match fields with
  | [] => Ok None
  | field :: rest =>
      present ← py_contains field data;
      if present : bool then first_missing rest data else Ok (Some field)
  end.

(** [{lbl: round(p, 4) for lbl, p in zip(label_enc.classes_, proba)}] *)
Definition probabilities (le : LabelEncoder) (proba : list float) : gmap string pyval :=
  foldl (λ d '(lbl, p), <[lbl := PFloat (py_round p 4)]> d) ∅ (zip (classes_ le) proba).

(** [if proba and label_enc is not None: resp["probabilities"] = ...] *)
Definition add_probabilities (g : Globals) (proba : option (list float))
    (resp : gmap string pyval) : gmap string pyval :=
  match proba, label_enc g with
  | Some (p :: ps), Some le => <["probabilities" := PDict (probabilities le (p :: ps))]> resp
  | _, _ => resp
  end.

(** [POST /api/sensor-data].  [ts] is [datetime.utcnow().isoformat()] at the
    time of the call and [data] the parsed JSON body ([get_json] ends a
    request whose body is not JSON before the handler's own code runs).  The
    [log.warning] after the commit is not modelled. *)
Definition receive_sensor_data (g : Globals) (ts : string) (data : pyval)
    : handler response :=
  if negb (py_truthy data) then h_ret (mkResponse 400 (error_body "No JSON body"))
  else
    missing ←ₕ lift (first_missing ["device_id"; "temperature"; "smoke"; "gas"] data);
    match missing with
    | Some field => h_ret (mkResponse 400 (error_body ("Missing field: " +:+ field)))
    | None =>
        temp ←ₕ lift (py_getitem data "temperature" ≫= py_float);
        smoke ←ₕ lift (py_getitem data "smoke" ≫= py_int);
        gas ←ₕ lift (py_getitem data "gas" ≫= py_int);
        '(label, code, proba) ←ₕ lift (ml_predict g temp smoke gas);
        device_id ←ₕ lift (py_getitem data "device_id");
        _ ←ₕ db_insert device_id ts temp smoke gas label code;
        let resp :=
          list_to_map [("status", PStr "ok"); ("risk_level", PStr label);
                       ("risk_code", PInt code)] in
        h_ret (mkResponse 200 (PDict (add_probabilities g proba resp)))
    end.

(** The [rows] that [get_latest] fetches. *)
Definition latest_rows (device : option string) (limit : Z) (db : Db) : list Row :=
  match device with
  | Some d =>
      if py_truthy (PStr d) then select_latest db (Some d) limit
      else select_latest db None limit
  | None => select_latest db None limit
  end.

(** [GET /api/latest], with the query arguments [device_id] and [limit]. *)
Definition get_latest (device limit_arg : option string) : handler response :=
  limit ←ₕ lift (py_int (default (PInt 50) (PStr <$> limit_arg)));
  db ←ₕ db_read;
  _ ←ₕ lift (bind_int limit);
  h_ret (mkResponse 200 (PList (row_to_dict <$> latest_rows device limit db))).

(** [max(xs)] for a non-empty sequence [x :: xs] of floats. *)
Definition py_max (x : float) (xs : list float) : float :=
  foldl (λ m y, if float_gt y m then y else m) x xs.

(** [x / n] for a float and an int. *)
Definition float_div_int (x : float) (n : Z) : result float :=
  d ← float_of_int n;
  if n =? 0 then Raise ZeroDivisionError else Ok (SFdiv prec emax x d).

(** [GET /api/stats].  [cutoff] is
    [(datetime.utcnow() - timedelta(hours=24)).isoformat()]. *)
Definition get_stats (g : Globals) (cutoff : string) : handler response :=
  db ←ₕ db_read;
  let total := Z.of_nat (length db) in
  let high := count_risk db "HIGH" in
  let medium := count_risk db "MEDIUM" in
  let low := count_risk db "LOW" in
  let recent := select_since db cutoff in
  let n := Z.of_nat (length recent) in
  '(avg_temp, avg_smoke, avg_gas, max_temp) ←ₕ lift
    (match recent with
     | r :: rs =>
         mean_temp ← float_div_int (float_sum (recent.*1.*1)) n;
         mean_smoke ← int_truediv (foldr Z.add 0 (recent.*1.*2)) n;
         mean_gas ← int_truediv (foldr Z.add 0 (recent.*2)) n;
         Ok (PFloat (py_round mean_temp 2),
             PFloat (py_round mean_smoke 2),
             PFloat (py_round mean_gas 2),
             PFloat (py_round (py_max (r.1.1) (rs.*1.*1)) 2))
     | [] => Ok (PInt 0, PInt 0, PInt 0, PInt 0)
     end);
  h_ret (mkResponse 200 (PDict (list_to_map [
    ("total_readings", PInt total);
    ("risk_distribution",
       PDict (list_to_map [("LOW", PInt low); ("MEDIUM", PInt medium); ("HIGH", PInt high)]));
    ("last_24h",
       PDict (list_to_map [("count", PInt n); ("avg_temp", avg_temp);
                           ("avg_smoke", avg_smoke); ("avg_gas", avg_gas);
                           ("max_temp", max_temp)]));
    ("model",
       if py_truthy (PDict (model_meta g)) then PDict (model_meta g)
       else PStr "rule-based")]))).

(** [SELECT DISTINCT]: SQLite scans the table in id order and answers each
    value where it first appears. *)
Definition sql_distinct (values : list string) : list string :=
  reverse (remove_dups (reverse values)).

(** [GET /api/devices] *)
Definition get_devices : handler response :=
  db ←ₕ db_read;
  h_ret (mkResponse 200 (PList (PStr <$> sql_distinct (row_device_id <$> db)))).

(** [POST /api/predict] *)
Definition manual_predict (g : Globals) (data : pyval) : handler response :=
  temp ←ₕ lift (py_get data "temperature" (PInt 30) ≫= py_float);
  smoke ←ₕ lift (py_get data "smoke" (PInt 100) ≫= py_int);
  gas ←ₕ lift (py_get data "gas" (PInt 150) ≫= py_int);
  '(label, code, proba) ←ₕ lift (ml_predict g temp smoke gas);
  let resp := list_to_map [("risk_level", PStr label); ("risk_code", PInt code)] in
  h_ret (mkResponse 200 (PDict (add_probabilities g proba resp))).

End Routes.

(** ** The specification's vocabulary *)

(** The fixed mapping between risk levels and risk codes. *)
Definition risk_table : list (string * Z) := [("LOW", 0); ("MEDIUM", 1); ("HIGH", 2)].

(** A (label, code) pair is consistent when it is a line of the table. *)
Definition consistent (label : string) (code : Z) : Prop := (label, code) ∈ risk_table.

(** The three contributions to the severity score, as the specification
    words them. *)
Definition temperature_points (temperature : float) : Z :=
  if float_ge_int temperature 60 then 2
  else if float_ge_int temperature 45 then 1 else 0.

Definition smoke_points (smoke : Z) : Z :=
  if decide (500 ≤ smoke) then 2 else if decide (300 ≤ smoke) then 1 else 0.

Definition gas_points (gas : Z) : Z :=
  if decide (700 ≤ gas) then 2 else if decide (400 ≤ gas) then 1 else 0.


(** The primary key of [sensor_readings]: no two rows share an id. *)
Definition primary_key (db : Db) : Prop := NoDup (row_id <$> db).


(** ** Auxiliary definitions for the proofs *)

(** The steps of [receive_sensor_data] that follow the presence checks, on the
    four field values found in the payload. *)
Definition ingest {rt : PyRuntime} (G : Globals) (ts : string) (dev vt vs vg : pyval)
    : handler response :=
  temp ←ₕ lift (py_float vt);
  smoke ←ₕ lift (py_int vs);
  gas ←ₕ lift (py_int vg);
  '(label, code, proba) ←ₕ lift (ml_predict G temp smoke gas);
  _ ←ₕ db_insert dev ts temp smoke gas label code;
  let resp :=
    list_to_map [("status", PStr "ok"); ("risk_level", PStr label);
                 ("risk_code", PInt code)] in
  h_ret (mkResponse 200 (PDict (add_probabilities G proba resp))).

(** ** Closed examples *)

(** The float written [n.0]. *)
Definition float_lit (n : Z) : float := binary_normalize prec emax n 0 false.

Definition digit_of (c : ascii) : option Z :=
  let n := Z.of_N (N_of_ascii c) in
  if (48 <=? n) && (n <=? 57) then Some (n - 48) else None.

Fixpoint parse_digits (acc : Z) (s : string) : option Z :=
  match s with
  | EmptyString => Some acc
  | String c rest => d ← digit_of c; parse_digits (10 * acc + d) rest
  end.

Definition parse_numeral (s : string) : option Z :=
  match s with
  | EmptyString => None
  | String "-"%char (String _ _ as rest) => Z.opp <$> parse_digits 0 rest
  | _ => parse_digits 0 s
  end.

(** A runtime for closed examples.  It reads plain decimal numerals (sign and
    ASCII digits) and nothing else, adds floats left to right, divides small
    integers through their floats, and leaves a float unrounded; the examples
    below stay on inputs where CPython and SQLite do the same. *)
Definition example_runtime : PyRuntime := {|
  float_of_str := λ s, float_lit <$> parse_numeral s;
  int_of_str := parse_numeral;
  py_round := λ x _, x;
  float_sum := foldl (SFadd prec emax) (S754_zero false);
  int_truediv := λ a b,
    if b =? 0 then Raise ZeroDivisionError
    else Ok (SFdiv prec emax (float_lit a) (float_lit b));
  sqlite_num_text := λ v, match v with PInt z => pretty z | _ => "" end
|}.

(** A well-formed ingestion payload. *)
Definition hot_payload : gmap string pyval :=
  list_to_map [("device_id", PStr "ESP32_01"); ("temperature", PFloat (float_lit 65));
               ("smoke", PInt 600); ("gas", PInt 0)].

(** The row that ingesting it into an empty table stores. *)
Definition hot_row : Row :=
  mkRow 1 "ESP32_01" "2024-05-01T10:00:00" (float_lit 65) 600 0 "HIGH" 2.

(** The same payload with a JSON [null] where the temperature should be. *)
Definition null_temperature_payload : gmap string pyval :=
  <["temperature" := PNone]> hot_payload.

(** The same payload with a word where the temperature should be. *)
Definition text_temperature_payload : gmap string pyval :=
  <["temperature" := PStr "hot"]> hot_payload.

(** scikit-learn's [LabelEncoder] fitted on [classes]: index [c] decodes to
    the [c]-th class, and an index outside the classes is a [ValueError]. *)
Definition label_encoder (classes : list string) : LabelEncoder :=
  {| inverse_transform := λ c,
       if c <? 0 then Raise ValueError
       else match classes !! Z.to_nat c with
            | Some label => Ok label
            | None => Raise ValueError
            end;
     classes_ := classes |}.

(** The metadata [train_model.py] writes beside the artifacts. *)
Definition example_meta (classes : list string) : gmap string pyval :=
  list_to_map [("model_name", PStr "RandomForest");
               ("features", PList [PStr "temperature"; PStr "smoke"; PStr "gas"]);
               ("classes", PList (PStr <$> classes));
               ("test_accuracy", PFloat (float_lit 1));
               ("use_scaled", PBool false)].

(** A loaded model trained on data with a fourth label, CRITICAL, whose
    predictor always answers class 0. *)
Definition four_classes : list string := ["CRITICAL"; "HIGH"; "LOW"; "MEDIUM"].

Definition constant_predictor : Predictor :=
  {| predict := λ _, Ok 0;
     predict_proba := λ _, Ok [float_lit 1; float_lit 0; float_lit 0; float_lit 0] |}.

Definition critical_globals : Globals :=
  {| predictor := Some constant_predictor;
     scaler := Some {| transform := λ x, Ok x |};
     label_enc := Some (label_encoder four_classes);
     model_meta := example_meta four_classes |}.

(** A loaded model whose predictor rejects its input. *)
Definition shape_mismatch : exn :=
  ModelError "X has 3 features, but RandomForestClassifier is expecting 4 features as input.".

Definition broken_predictor : Predictor :=
  {| predict := λ _, Raise shape_mismatch; predict_proba := λ _, Raise shape_mismatch |}.

Definition broken_globals : Globals :=
  {| predictor := Some broken_predictor;
     scaler := Some {| transform := λ x, Ok x |};
     label_enc := Some (label_encoder ["HIGH"; "LOW"; "MEDIUM"]);
     model_meta := example_meta ["HIGH"; "LOW"; "MEDIUM"] |}.

(** Two readings from two devices. *)
Definition kitchen_row : Row :=
  mkRow 1 "kitchen" "2024-05-01T10:00:00" (float_lit 30) 100 150 "LOW" 0.

Definition garage_row : Row :=
  mkRow 2 "garage" "2024-05-01T10:00:02" (float_lit 65) 600 0 "HIGH" 2.

Definition two_device_db : Db := [kitchen_row; garage_row].


(** ** Invariants of the store *)

(** A stored row as the table's column constraints and the classifier leave
    it: the id is a positive 64-bit integer, the temperature is not NaN, the
    integer columns fit 64 bits, and the code is the one [RISK_CODES] gives
    the label (0 when it gives none). *)
Definition row_ok (r : Row) : Prop :=
  1 ≤ row_id r ∧ int64_ok (row_id r) = true
  ∧ row_temperature r ≠ S754_nan
  ∧ int64_ok (row_smoke r) = true ∧ int64_ok (row_gas r) = true
  ∧ row_risk_code r = default 0 (RISK_CODES !! row_risk_level r).

(** Ids grow along the log. *)
Definition ids_increasing (db : Db) : Prop :=
  StronglySorted (λ r1 r2, row_id r1 < row_id r2) db.

(** [x != x], the test that singles out NaN. *)
Definition is_nan (x : float) : bool :=
  match x with S754_nan => true | _ => false end.

(** ** Exact comparison of floats *)


(** [x <= y] on floats.  The comparison is exact: two finite values are
    brought to a common exponent and compared as integers; NaN compares
    false with everything, and the two zeros are equal. *)
Definition float_le (x y : float) : bool :=
  match x, y with
  | S754_nan, _ | _, S754_nan => false
  | S754_infinity true, _ => true
  | _, S754_infinity false => true
  | S754_infinity false, _ => false
  | _, S754_infinity true => false
  | S754_zero _, S754_zero _ => true
  | S754_zero _, S754_finite s _ _ => negb s
  | S754_finite s _ _, S754_zero _ => s
  | S754_finite s1 m1 e1, S754_finite s2 m2 e2 =>
      let k := - Z.min e1 e2 in
      cond_Zopp s1 (Z.pos m1 * 2 ^ (e1 + k)) <=? cond_Zopp s2 (Z.pos m2 * 2 ^ (e2 + k))
  end.

(** ** Loading the model at startup *)

(** What [load_model] finds in [MODEL_DIR]: whether [model_meta.json] exists
    and what [json.load] makes of it, and what [joblib.load] makes of the
    three pickles. *)
Record ModelDir : Type := {
  meta_json : option (result pyval);
  predictor_pkl : result Predictor;
  scaler_pkl : result Scaler;
  label_encoder_pkl : result LabelEncoder
}.

(** [load_model()], called once before the server starts: the globals it
    leaves, or the exception that ends the process.  The closing [log.info]
    subscripts the metadata with [model_name] and [test_accuracy]. *)
Definition load_model (dir : ModelDir) (g : Globals) : result Globals :=
  match meta_json dir with
  | None => Ok g
  | Some meta_file =>
      meta ← meta_file;
      p ← predictor_pkl dir;
      sc ← scaler_pkl dir;
      le ← label_encoder_pkl dir;
      _ ← py_getitem meta "model_name";
      _ ← py_getitem meta "test_accuracy";
      match meta with
      | PDict model_meta =>
          Ok {| predictor := Some p; scaler := Some sc; label_enc := Some le;
                model_meta := model_meta |}
      | _ => Raise TypeError
      end
  end.

(** ** The sensor simulator ([simulator.py]) *)

(** [n < x] for an [int] [n] and a [float] [x], compared exactly. *)
Definition int_lt_float (n : Z) (x : float) : bool :=
  match x with
  | S754_nan => false
  | S754_infinity s => negb s
  | S754_zero _ => n <? 0
  | S754_finite s m e =>
      if 0 <=? e then n <? cond_Zopp s (Z.pos m * 2 ^ e)
      else n * 2 ^ (- e) <? cond_Zopp s (Z.pos m)
  end.

(** [min(x, n)] for a float [x] and an int [n]: [n] when [n < x], else [x]. *)
Definition py_min_float_int (x : float) (n : Z) : pyval :=
  if int_lt_float n x then PInt n else PFloat x.

(** The literal [1.2]. *)
Definition float_1_2 : float := S754_finite false 5404319552844595 (-52).

(** [normal_reading()]; [u] is the draw of [random.uniform(25, 42)], [smoke]
    and [gas] the draws of [random.randint(50, 280)] and
    [random.randint(80, 380)]. *)
Definition normal_reading {rt : PyRuntime} (u : float) (smoke gas : Z)
    : gmap string pyval :=
  list_to_map [("temperature", PFloat (py_round u 2)); ("smoke", PInt smoke);
               ("gas", PInt gas)].

(** [escalating_reading(step)]; [u_t], [u_s] and [u_g] are the draws of
    [random.uniform(-2, 2)] and of the two [random.uniform(-20, 20)]. *)
Definition escalating_reading {rt : PyRuntime} (step : Z) (u_t u_s u_g : float)
    : result (gmap string pyval) :=
  step_f ← float_of_int step;
  thirty ← float_of_int 30;
  let t := SFadd prec emax (SFadd prec emax thirty (SFmul prec emax step_f float_1_2)) u_t in
  s_base ← float_of_int (100 + step * 15);
  let s := SFadd prec emax s_base u_s in
  g_base ← float_of_int (150 + step * 12);
  let g := SFadd prec emax g_base u_g in
  let temperature :=
    match py_min_float_int t 130 with
    | PFloat x => PFloat (py_round x 2)
    | v => v
    end in
  smoke ← match py_min_float_int s 1200 with PFloat x => int_of_float x | _ => Ok 1200 end;
  gas ← match py_min_float_int g 1200 with PFloat x => int_of_float x | _ => Ok 1200 end;
  Ok (list_to_map [("temperature", temperature); ("smoke", PInt smoke);
                   ("gas", PInt gas)]).

(** The body [post] sends: [{"device_id": device, **payload}]. *)
Definition post_body (device : string) (payload : gmap string pyval)
    : gmap string pyval :=
  payload ∪ {["device_id" := PStr device]}.

(** ** Model selection ([train_model.py]) *)

(** The loop over [candidates.items()] that keeps the candidate with the best
    mean cross-validation accuracy.  [cv_means] lists each candidate's name
    with its [cv.mean()], in the order of the dict; the state is
    [(best_name, best_score)], where the score [None] stands for the initial
    integer 0, and the chosen model is known by its name. *)
Definition select_best (cv_means : list (string * float)) : string * option float :=
  foldl (λ '(best_name, best_score) '(name, mean),
           if match best_score with
              | None => int_lt_float 0 mean
              | Some best => float_gt mean best
              end
           then (name, Some mean)
           else (best_name, best_score))
        ("", None) cv_means.

(** ** Further closed examples *)

(** A model directory as [train_model.py] leaves it, and an empty one. *)
Definition trained_model_dir : ModelDir :=
  {| meta_json := Some (Ok (PDict (example_meta four_classes)));
     predictor_pkl := Ok constant_predictor;
     scaler_pkl := Ok {| transform := λ x, Ok x |};
     label_encoder_pkl := Ok (label_encoder four_classes) |}.

Definition empty_model_dir : ModelDir :=
  {| meta_json := None;
     predictor_pkl := Raise (ModelError "No such file or directory");
     scaler_pkl := Raise (ModelError "No such file or directory");
     label_encoder_pkl := Raise (ModelError "No such file or directory") |}.

(** The statistics snapshot of [two_device_db] with both readings in the
    window and no model loaded, under [example_runtime]. *)
Definition two_device_stats : gmap string pyval :=
  list_to_map [
    ("total_readings", PInt 2);
    ("risk_distribution",
       PDict (list_to_map [("LOW", PInt 1); ("MEDIUM", PInt 0); ("HIGH", PInt 1)]));
    ("last_24h",
       PDict (list_to_map [
         ("count", PInt 2);
         ("avg_temp", PFloat (SFdiv prec emax (float_lit 95) (float_lit 2)));
         ("avg_smoke", PFloat (SFdiv prec emax (float_lit 700) (float_lit 2)));
         ("avg_gas", PFloat (SFdiv prec emax (float_lit 150) (float_lit 2)));
         ("max_temp", PFloat (float_lit 65))]));
    ("model", PStr "rule-based")].

(** The reading [escalating_reading(3)] returns when the three noise draws
    are 0, under [example_runtime]. *)
Definition step_3_reading : gmap string pyval :=
  list_to_map [
    ("temperature",
       PFloat (SFadd prec emax
                 (SFadd prec emax (float_lit 30)
                    (SFmul prec emax (float_lit 3) float_1_2))
                 (S754_zero false)));
    ("smoke", PInt 145); ("gas", PInt 186)].

(** The snapshot of the same store once the kitchen reading has left the
    window. *)
Definition garage_window_stats : gmap string pyval :=
  list_to_map [
    ("total_readings", PInt 2);
    ("risk_distribution",
       PDict (list_to_map [("LOW", PInt 1); ("MEDIUM", PInt 0); ("HIGH", PInt 1)]));
    ("last_24h",
       PDict (list_to_map [
         ("count", PInt 1);
         ("avg_temp", PFloat (SFdiv prec emax (float_lit 65) (float_lit 1)));
         ("avg_smoke", PFloat (SFdiv prec emax (float_lit 600) (float_lit 1)));
         ("avg_gas", PFloat (SFdiv prec emax (float_lit 0) (float_lit 1)));
         ("max_temp", PFloat (float_lit 65))]));
    ("model", PStr "rule-based")].

(** ** Properties of the rule-based classifier *)

Lemma geb_decide (a b : Z) : (a >=? b) = bool_decide (b ≤ a).
Proof.
  rewrite Z.geb_leb. destruct (Z.leb_spec b a).
  - by rewrite bool_decide_eq_true_2.
  - rewrite bool_decide_eq_false_2; [done | lia].
Qed.

Lemma rule_score_sum (temperature : float) (smoke gas : Z) :
  rule_score temperature smoke gas
  = temperature_points temperature + smoke_points smoke + gas_points gas.
Proof.
  unfold rule_score, temperature_points, smoke_points, gas_points.
  rewrite !geb_decide.
  destruct (float_ge_int temperature 60), (float_ge_int temperature 45);
    repeat case_bool_decide; repeat case_decide; lia.
Qed.

Lemma rule_score_range (temperature : float) (smoke gas : Z) :
  0 ≤ rule_score temperature smoke gas ≤ 6.
Proof.
  rewrite rule_score_sum.
  unfold temperature_points, smoke_points, gas_points.
  destruct (float_ge_int temperature 60), (float_ge_int temperature 45);
    repeat case_decide; lia.
Qed.

(** C1: the rule-based classifier sums three independent contributions
    (temperature 2/1/0 at thresholds 60/45, smoke 2/1/0 at 500/300, gas 2/1/0
    at 700/400) into a score between 0 and 6, and labels a score of at most 1
    LOW (code 0), a score of 2 or 3 MEDIUM (code 1) and a score of at least 4
    HIGH (code 2); (60,0,0) scores 2 and is MEDIUM, (65,600,0) scores 4 and is
    HIGH, (10,0,0) scores 0 and is LOW. *)
Theorem rule_predict_score_and_label :
  (∀ (temperature : float) (smoke gas : Z),
      let score := rule_score temperature smoke gas in
      score = temperature_points temperature + smoke_points smoke + gas_points gas
      ∧ 0 ≤ score ≤ 6
      ∧ (score ≤ 1 → rule_predict temperature smoke gas = ("LOW", 0, None))
      ∧ (2 ≤ score ≤ 3 → rule_predict temperature smoke gas = ("MEDIUM", 1, None))
      ∧ (4 ≤ score → rule_predict temperature smoke gas = ("HIGH", 2, None)))
  ∧ (rule_score (float_lit 60) 0 0 = 2
     ∧ rule_predict (float_lit 60) 0 0 = ("MEDIUM", 1, None))
  ∧ (rule_score (float_lit 65) 600 0 = 4
     ∧ rule_predict (float_lit 65) 600 0 = ("HIGH", 2, None))
  ∧ (rule_score (float_lit 10) 0 0 = 0
     ∧ rule_predict (float_lit 10) 0 0 = ("LOW", 0, None)).
Proof.
  split; [| by vm_compute].
  intros temperature smoke gas score.
  split; [apply rule_score_sum |].
  split; [apply rule_score_range |].
  unfold rule_predict. fold score.
  repeat split; intros Hscore.
  - destruct (Z.leb_spec score 1); [done | lia].
  - destruct (Z.leb_spec score 1); [lia |].
    destruct (Z.leb_spec score 3); [done | lia].
  - destruct (Z.leb_spec score 1); [lia |].
    destruct (Z.leb_spec score 3); [lia | done].
Qed.

Lemma rule_predict_cases (temperature : float) (smoke gas : Z) :
  rule_predict temperature smoke gas = ("LOW", 0, None)
  ∨ rule_predict temperature smoke gas = ("MEDIUM", 1, None)
  ∨ rule_predict temperature smoke gas = ("HIGH", 2, None).
Proof.
  unfold rule_predict.
  destruct (rule_score temperature smoke gas <=? 1); [by left |].
  destruct (rule_score temperature smoke gas <=? 3); [by right; left | by right; right].
Qed.

Lemma ml_predict_not_loaded (G : Globals) (temperature : float) (smoke gas : Z) :
  predictor G = None →
  ml_predict G temperature smoke gas = Ok (rule_predict temperature smoke gas).
Proof. intros HG. unfold ml_predict. by rewrite HG. Qed.

(** C8: the rule-based classifier is a total function of its three inputs:
    equal inputs give equal (label, code), whatever the process-wide state it
    runs in, and the probabilities component is always [None]. *)
Theorem rule_predict_pure_total (G G' : Globals) (t t' : float) (s s' g g' : Z) :
  (t, s, g) = (t', s', g') → predictor G = None → predictor G' = None →
  rule_predict t s g = rule_predict t' s' g'
  ∧ ml_predict G t s g = Ok (rule_predict t s g)
  ∧ ml_predict G' t' s' g' = ml_predict G t s g
  ∧ ∃ label code, rule_predict t s g = (label, code, None) ∧ consistent label code.
Proof.
  intros [= <- <- <-] HG HG'.
  rewrite !ml_predict_not_loaded by done.
  repeat split.
  destruct (rule_predict_cases t s g) as [-> | [-> | ->]];
    eexists _, _; (split; [done |]); unfold consistent, risk_table; set_solver.
Qed.

(** ** Reasoning about raised exceptions *)

Lemma bind_Ok {A B : Type} (m : result A) (f : A → result B) (b : B) :
  m ≫= f = Ok b ↔ ∃ a, m = Ok a ∧ f a = Ok b.
Proof. destruct m as [a | e]; simpl; naive_solver. Qed.

Lemma bind_Raise {A B : Type} (m : result A) (f : A → result B) (e : exn) :
  m ≫= f = Raise e ↔ m = Raise e ∨ ∃ a, m = Ok a ∧ f a = Raise e.
Proof. destruct m as [a | e']; simpl; naive_solver. Qed.

Lemma bind_Ok_l {A B : Type} (a : A) (f : A → result B) : Ok a ≫= f = f a.
Proof. done. Qed.

Lemma bind_Raise_l {A B : Type} (e : exn) (f : A → result B) : Raise e ≫= f = Raise e.
Proof. done. Qed.

(** Split a successful chain of binds into its steps. *)
Ltac bind_inv H :=
  repeat match type of H with
         | _ ≫= _ = Ok _ =>
             let a := fresh "a" in
             let Ha := fresh "Ha" in
             apply bind_Ok in H as (a & Ha & H)
         end.

(** ** The label / code mapping *)


Lemma risk_table_bijective (label label' : string) (code code' : Z) :
  consistent label code → consistent label' code' → label = label' ↔ code = code'.
Proof.
  unfold consistent, risk_table. rewrite !elem_of_cons, !elem_of_nil.
  naive_solver.
Qed.


Lemma ml_predict_code (G : Globals) (t : float) (s g : Z)
    (label : string) (code : Z) (proba : option (list float)) :
  ml_predict G t s g = Ok (label, code, proba) →
  code = default 0 (RISK_CODES !! label).
Proof.
  unfold ml_predict. destruct (predictor G) as [p |].
  - intros H. bind_inv H. by simplify_eq.
  - intros [= H].
    destruct (rule_predict_cases t s g) as [E | [E | E]]; rewrite E in H;
      by simplify_eq.
Qed.



(** ** Properties of the ingestion route *)

Section Ingestion.
Context {rt : PyRuntime}.

Lemma dict_truthy (d : gmap string pyval) (k : string) (v : pyval) :
  d !! k = Some v → py_truthy (PDict d) = true.
Proof.
  intros Hk. simpl. apply negb_true_iff, Nat.eqb_neq.
  intros Hsize. apply map_size_empty_iff in Hsize. by subst.
Qed.

Lemma py_contains_dict (d : gmap string pyval) (k : string) (v : pyval) :
  d !! k = Some v → py_contains k (PDict d) = Ok true.
Proof. intros Hk. simpl. by rewrite Hk, bool_decide_eq_true_2. Qed.

Lemma receive_sensor_data_present (G : Globals) (ts : string)
    (d : gmap string pyval) (db : Db) (dev vt vs vg : pyval) :
  d !! "device_id" = Some dev → d !! "temperature" = Some vt →
  d !! "smoke" = Some vs → d !! "gas" = Some vg →
  receive_sensor_data G ts (PDict d) db = ingest G ts dev vt vs vg db.
Proof.
  intros Hdev Ht Hs Hg. unfold receive_sensor_data, ingest.
  rewrite (dict_truthy d _ _ Hdev). cbn [negb first_missing].
  rewrite (py_contains_dict _ _ _ Hdev), (py_contains_dict _ _ _ Ht),
    (py_contains_dict _ _ _ Hs), (py_contains_dict _ _ _ Hg).
  unfold h_bind, lift, py_getitem. rewrite Hdev, Ht, Hs, Hg. simpl.
  destruct (py_float vt) as [temp |]; [| done].
  destruct (py_int vs) as [smoke |]; [| done].
  destruct (py_int vg) as [gas |]; [| done].
  by destruct (ml_predict G temp smoke gas) as [[[label code] proba] |].
Qed.

(** C9: an empty JSON object is rejected by the truthiness test with the
    generic "No JSON body" error (status 400, store untouched), before the
    loop that would have reported device_id as missing. *)
Theorem empty_object_is_no_json_body (G : Globals) (ts : string) (db : Db) :
  receive_sensor_data G ts (PDict ∅) db
    = (Ok (mkResponse 400 (error_body "No JSON body")), db)
  ∧ first_missing ["device_id"; "temperature"; "smoke"; "gas"] (PDict ∅)
    = Ok (Some "device_id")
  ∧ error_body "No JSON body" ≠ error_body ("Missing field: " +:+ "device_id").
Proof.
  split; [done |]. split; [done |].
  unfold error_body. intros Heq.
  apply (f_equal (λ v, match v with PDict m => m !! "error" | _ => None end)) in Heq.
  discriminate Heq.
Qed.

Lemma py_float_raises (v : pyval) (e : exn) :
  py_float v = Raise e → e ∈ [TypeError; ValueError; OverflowError].
Proof.
  unfold py_float, float_of_int.
  intros H; repeat (case_match; simplify_eq); set_solver.
Qed.

Lemma py_int_raises (v : pyval) (e : exn) :
  py_int v = Raise e → e ∈ [TypeError; ValueError; OverflowError].
Proof.
  unfold py_int, int_of_float.
  intros H; repeat (case_match; simplify_eq); set_solver.
Qed.

(** C4 (as the code has it): when a required field is present but its
    coercion raises, the exception (TypeError, ValueError or OverflowError)
    leaves the handler uncaught: no response is produced, and the store is
    unchanged. *)
Theorem coercion_failure_escapes_ingestion (G : Globals) (ts : string)
    (d : gmap string pyval) (db : Db) (dev vt vs vg : pyval) (e : exn) :
  d !! "device_id" = Some dev → d !! "temperature" = Some vt →
  d !! "smoke" = Some vs → d !! "gas" = Some vg →
  (temp ← py_float vt; smoke ← py_int vs; gas ← py_int vg; Ok (temp, smoke, gas))
    = Raise e →
  e ∈ [TypeError; ValueError; OverflowError]
  ∧ receive_sensor_data G ts (PDict d) db = (Raise e, db).
Proof.
  intros Hdev Ht Hs Hg Hraise.
  rewrite (receive_sensor_data_present _ _ _ _ _ _ _ _ Hdev Ht Hs Hg).
  unfold ingest, h_bind, lift.
  destruct (py_float vt) as [temp | e1] eqn:Et; simpl in Hraise;
    [| injection Hraise as <-; eauto using py_float_raises].
  destruct (py_int vs) as [smoke | e2] eqn:Es; simpl in Hraise;
    [| injection Hraise as <-; eauto using py_int_raises].
  destruct (py_int vg) as [gas | e3] eqn:Eg; simpl in Hraise;
    [| injection Hraise as <-; eauto using py_int_raises].
  discriminate.
Qed.

(** A failure of [ml_predict] is a failure of ingestion, with nothing
    stored. *)
Lemma ml_predict_raise_ingest (G : Globals) (ts : string) (dev vt vs vg : pyval)
    (temp : float) (smoke gas : Z) (db : Db) (e : exn) :
  py_float vt = Ok temp → py_int vs = Ok smoke → py_int vg = Ok gas →
  ml_predict G temp smoke gas = Raise e →
  ingest G ts dev vt vs vg db = (Raise e, db).
Proof.
  intros Et Es Eg Hml. unfold ingest, h_bind, lift. by rewrite Et, Es, Eg, Hml.
Qed.

(** C3 (as the code has it): when no predictor is loaded the rule-based
    strategy classifies and cannot fail.  With a predictor loaded, each step
    of the model path that raises (the conversion to an array, the scaler or
    its absence, [predict], [predict_proba], the label encoder or its
    absence) makes [ml_predict] raise that same exception, and the ingestion
    handler with it: the request ends with the exception, the rule-based
    strategy is not consulted, and nothing is stored. *)
Theorem model_failure_escapes_ingestion (G : Globals) (ts : string)
    (d : gmap string pyval) (db : Db) (dev vt vs vg : pyval)
    (temp : float) (smoke gas : Z) :
  d !! "device_id" = Some dev → d !! "temperature" = Some vt →
  d !! "smoke" = Some vs → d !! "gas" = Some vg →
  py_float vt = Ok temp → py_int vs = Ok smoke → py_int vg = Ok gas →
  let use_scaled := py_truthy (default PNone (model_meta G !! "use_scaled")) in
  let escapes (e : exn) :=
    ml_predict G temp smoke gas = Raise e
    ∧ receive_sensor_data G ts (PDict d) db = (Raise e, db) in
  (predictor G = None →
     ml_predict G temp smoke gas = Ok (rule_predict temp smoke gas))
  ∧ (∀ e, ml_predict G temp smoke gas = Raise e →
       predictor G ≠ None
       ∧ receive_sensor_data G ts (PDict d) db = (Raise e, db))
  ∧ (∀ p, predictor G = Some p →
       (∀ e, np_array_float temp smoke gas = Raise e → escapes e)
       ∧ ∀ feat, np_array_float temp smoke gas = Ok feat →
           (use_scaled = true → scaler G = None → escapes AttributeError)
           ∧ (∀ sc e, use_scaled = true → scaler G = Some sc →
                transform sc feat = Raise e → escapes e)
           ∧ ∀ feat_sc,
               (if use_scaled
                then ∃ sc, scaler G = Some sc ∧ transform sc feat = Ok feat_sc
                else feat_sc = feat) →
               (∀ e, predict p feat_sc = Raise e → escapes e)
               ∧ ∀ enc_code, predict p feat_sc = Ok enc_code →
                   (∀ e, predict_proba p feat_sc = Raise e → escapes e)
                   ∧ ∀ proba, predict_proba p feat_sc = Ok proba →
                       (label_enc G = None → escapes AttributeError)
                       ∧ (∀ le e, label_enc G = Some le →
                            inverse_transform le enc_code = Raise e →
                            escapes e)).
Proof.
  intros Hdev Ht Hs Hg Et Es Eg use_scaled escapes.
  assert (Hescapes : ∀ e, ml_predict G temp smoke gas = Raise e → escapes e).
  { intros e Hml. split; [done |].
    rewrite (receive_sensor_data_present _ _ _ _ _ _ _ _ Hdev Ht Hs Hg).
    by apply (ml_predict_raise_ingest _ _ _ _ _ _ temp smoke gas). }
  split; [apply ml_predict_not_loaded |]. split.
  { intros e Hml. split; [| by apply Hescapes].
    intros HG. by rewrite ml_predict_not_loaded in Hml. }
  intros p Hp. split.
  { intros e Hfeat. apply Hescapes. unfold ml_predict. by rewrite Hp, Hfeat. }
  intros feat Hfeat. split; [| split].
  { intros Hscaled Hsc. apply Hescapes. unfold ml_predict.
    rewrite Hp, Hfeat. cbn [mbind result_bind].
    fold use_scaled. by rewrite Hscaled, Hsc. }
  { intros sc e Hscaled Hsc Htr. apply Hescapes. unfold ml_predict.
    rewrite Hp, Hfeat. cbn [mbind result_bind].
    fold use_scaled. rewrite Hscaled, Hsc. cbn [attr]. by rewrite Htr. }
  intros feat_sc Hfeat_sc.
  assert (Hpath : ml_predict G temp smoke gas
                  = (enc_code ← predict p feat_sc;
                     proba ← predict_proba p feat_sc;
                     label ← attr (label_enc G) (λ le, inverse_transform le enc_code);
                     Ok (label, default 0 (RISK_CODES !! label), Some proba))).
  { unfold ml_predict. rewrite Hp, Hfeat. cbn [mbind result_bind].
    fold use_scaled. destruct use_scaled.
    - destruct Hfeat_sc as (sc & -> & Htr). cbn [attr]. by rewrite Htr.
    - by subst feat_sc. }
  split.
  { intros e Hpred. apply Hescapes. by rewrite Hpath, Hpred. }
  intros enc_code Hpred. split.
  { intros e Hproba. apply Hescapes. rewrite Hpath, Hpred. cbn [mbind result_bind].
    by rewrite Hproba. }
  intros proba Hproba. split.
  { intros Hle. apply Hescapes. rewrite Hpath, Hpred. cbn [mbind result_bind].
    rewrite Hproba. cbn [mbind result_bind]. by rewrite Hle. }
  intros le e Hle Hinv. apply Hescapes. rewrite Hpath, Hpred.
  cbn [mbind result_bind]. rewrite Hproba. cbn [mbind result_bind].
  rewrite Hle. cbn [attr]. by rewrite Hinv.
Qed.

End Ingestion.

(** C4 fails on the code: a JSON null (or a word) in place of the temperature
    is present, so the presence loop passes, and [float] raises; the handler
    ends with that exception instead of an error response. *)
Lemma null_temperature_is_uncaught :
  null_temperature_payload !! "temperature" = Some PNone
  ∧ (∀ (rt : PyRuntime) (G : Globals) (ts : string) (db : Db),
       receive_sensor_data G ts (PDict null_temperature_payload) db
         = (Raise TypeError, db))
  ∧ (∀ (G : Globals) (ts : string) (db : Db),
       receive_sensor_data (rt := example_runtime) G ts
           (PDict text_temperature_payload) db
         = (Raise ValueError, db)).
Proof.
  split; [done |]. split.
  - intros rt G ts db.
    by rewrite (receive_sensor_data_present G ts null_temperature_payload db
                  (PStr "ESP32_01") PNone (PInt 600) (PInt 0)).
  - intros G ts db.
    by rewrite (receive_sensor_data_present G ts text_temperature_payload db
                  (PStr "ESP32_01") (PStr "hot") (PInt 600) (PInt 0)).
Qed.

(** C3 fails on the code: with a predictor loaded that rejects its input,
    ingestion of a well-formed payload ends with the model's exception; the
    rule-based strategy, which would have said HIGH, is not consulted. *)
Lemma broken_model_fails_ingestion :
  ml_predict broken_globals (float_lit 65) 600 0 = Raise shape_mismatch
  ∧ rule_predict (float_lit 65) 600 0 = ("HIGH", 2, None)
  ∧ (∀ (rt : PyRuntime) (ts : string) (db : Db),
       receive_sensor_data broken_globals ts (PDict hot_payload) db
         = (Raise shape_mismatch, db)).
Proof.
  split; [by vm_compute |]. split; [by vm_compute |].
  intros rt ts db.
  by rewrite (receive_sensor_data_present broken_globals ts hot_payload db
                (PStr "ESP32_01") (PFloat (float_lit 65)) (PInt 600) (PInt 0)).
Qed.

Lemma model_failure_escapes_ingestion_witness :
  ml_predict broken_globals (float_lit 65) 600 0 = Raise shape_mismatch
  ∧ receive_sensor_data (rt := example_runtime) broken_globals
        "2024-05-01T10:00:00" (PDict hot_payload) []
      = (Raise shape_mismatch, []).
Proof.
  unshelve epose proof
    (model_failure_escapes_ingestion (rt := example_runtime) broken_globals
       "2024-05-01T10:00:00" hot_payload []
       (PStr "ESP32_01") (PFloat (float_lit 65)) (PInt 600) (PInt 0)
       (float_lit 65) 600 0 _ _ _ _ _ _ _) as Hsteps; [reflexivity.. |].
  cbv zeta in Hsteps. destruct Hsteps as (_ & _ & Hsteps).
  destruct (Hsteps broken_predictor eq_refl) as [_ Hfeat].
  destruct (Hfeat [float_lit 65; float_lit 600; float_lit 0] eq_refl)
    as (_ & _ & Hscaled).
  destruct (Hscaled [float_lit 65; float_lit 600; float_lit 0] eq_refl)
    as [Hpredict _].
  exact (Hpredict shape_mismatch eq_refl).
Defined.

Lemma coercion_failure_escapes_ingestion_witness :
  TypeError ∈ [TypeError; ValueError; OverflowError]
  ∧ receive_sensor_data (rt := example_runtime) initial_globals
        "2024-05-01T10:00:00" (PDict null_temperature_payload) []
      = (Raise TypeError, []).
Proof.
  apply (coercion_failure_escapes_ingestion (rt := example_runtime)
           initial_globals "2024-05-01T10:00:00" null_temperature_payload []
           (PStr "ESP32_01") PNone (PInt 600) (PInt 0) TypeError);
    reflexivity.
Defined.

(** ** Properties of the manual predict route *)

Section Manual.
Context {rt : PyRuntime}.

Lemma manual_predict_dict (G : Globals) (d : gmap string pyval) (db : Db) :
  manual_predict G (PDict d) db =
    match
      temp ← py_float (default (PInt 30) (d !! "temperature"));
      smoke ← py_int (default (PInt 100) (d !! "smoke"));
      gas ← py_int (default (PInt 150) (d !! "gas"));
      ml_predict G temp smoke gas
    with
    | Ok (label, code, proba) =>
        (Ok (mkResponse 200 (PDict (add_probabilities G proba
               (list_to_map [("risk_level", PStr label); ("risk_code", PInt code)])))),
         db)
    | Raise e => (Raise e, db)
    end.
Proof.
  unfold manual_predict, h_bind, lift, py_get. simpl.
  destruct (py_float _) as [temp |]; [| done]. simpl.
  destruct (py_int (default (PInt 100) _)) as [smoke |]; [| done]. simpl.
  destruct (py_int (default (PInt 150) _)) as [gas |]; [| done]. simpl.
  by destruct (ml_predict G temp smoke gas) as [[[label code] proba] |].
Qed.

Lemma manual_predict_not_dict (G : Globals) (data : pyval) (db : Db) :
  (∀ d, data ≠ PDict d) → manual_predict G data db = (Raise AttributeError, db).
Proof. intros Hnd. destruct data; try done. by destruct (Hnd d). Qed.

Lemma manual_predict_frame (G : Globals) (data : pyval) (db : Db) :
  (manual_predict G data db).2 = db.
Proof.
  destruct data;
    try (rewrite manual_predict_not_dict; [done | by intros ?]).
  rewrite manual_predict_dict.
  by repeat case_match.
Qed.

Lemma first_missing_dict_None (d : gmap string pyval) :
  first_missing ["device_id"; "temperature"; "smoke"; "gas"] (PDict d) = Ok None →
  is_Some (d !! "device_id") ∧ is_Some (d !! "temperature")
  ∧ is_Some (d !! "smoke") ∧ is_Some (d !! "gas").
Proof.
  simpl. intros H.
  repeat (case_bool_decide; simpl in H; [| discriminate]). done.
Qed.

Lemma receive_sensor_data_ok_inv (G : Globals) (ts : string) (data : pyval)
    (db db' : Db) (b : pyval) :
  receive_sensor_data G ts data db = (Ok (mkResponse 200 b), db') →
  ∃ d dev vt vs vg,
    data = PDict d ∧ d !! "device_id" = Some dev ∧ d !! "temperature" = Some vt
    ∧ d !! "smoke" = Some vs ∧ d !! "gas" = Some vg.
Proof.
  unfold receive_sensor_data.
  destruct (py_truthy data) eqn:Htruthy; cbn [negb]; [| discriminate].
  unfold h_bind at 1. unfold lift at 1.
  destruct (first_missing _ data) as [[field |] | e] eqn:Hmissing;
    [discriminate | | discriminate].
  destruct data; try discriminate.
  intros _. apply first_missing_dict_None in Hmissing
    as ([dev ?] & [vt ?] & [vs ?] & [vg ?]).
  by exists d, dev, vt, vs, vg.
Qed.

Lemma add_probabilities_delete_status (G : Globals) (proba : option (list float))
    (label : string) (code : Z) :
  delete "status"
    (add_probabilities G proba
       (list_to_map [("status", PStr "ok"); ("risk_level", PStr label);
                     ("risk_code", PInt code)]))
  = add_probabilities G proba
      (list_to_map [("risk_level", PStr label); ("risk_code", PInt code)]).
Proof.
  unfold add_probabilities.
  destruct proba as [[| p ps] |], (label_enc G) as [le |]; simpl;
    try (rewrite delete_insert_ne by done); by rewrite delete_insert_eq.
Qed.


Lemma add_probabilities_cases (G : Globals) (proba : option (list float))
    (base : gmap string pyval) :
  add_probabilities G proba base = base
  ∨ ∃ ps, add_probabilities G proba base = <["probabilities" := PDict ps]> base.
Proof.
  unfold add_probabilities.
  destruct proba as [[| p ps] |], (label_enc G) as [le |]; eauto.
Qed.

(** C7: the manual predict route never changes the store, whatever the
    payload; a response it returns has status 200 and a body holding
    risk_level, risk_code and possibly a probabilities mapping, with no status
    field; and it is the body of the ingestion success response for the same
    payload with the status field removed. *)
Theorem manual_predict_frame_and_shape (G : Globals) (data : pyval) (db : Db) :
  (manual_predict G data db).2 = db
  ∧ (∀ resp, (manual_predict G data db).1 = Ok resp →
       status_code resp = 200
       ∧ ∃ b label code,
           body resp = PDict b
           ∧ b !! "risk_level" = Some (PStr label)
           ∧ b !! "risk_code" = Some (PInt code)
           ∧ b !! "status" = None
           ∧ dom b ⊆ {["risk_level"; "risk_code"; "probabilities"]}
           ∧ ∀ v, b !! "probabilities" = Some v → ∃ ps, v = PDict ps)
  ∧ (∀ ts b db',
       receive_sensor_data G ts data db = (Ok (mkResponse 200 (PDict b)), db') →
       manual_predict G data db
         = (Ok (mkResponse 200 (PDict (delete "status" b))), db)).
Proof.
  split; [apply manual_predict_frame |]. split.
  - intros resp. destruct data;
      try (rewrite manual_predict_not_dict; [done | by intros ?]).
    rewrite manual_predict_dict.
    destruct (_ ≫= _) as [[[label code] proba] | e]; [| done].
    intros [= <-]. split; [done |].
    set (base := <["risk_level" := PStr label]> (<["risk_code" := PInt code]> ∅)
                 : gmap string pyval).
    assert (Hbase : dom base = {["risk_level"; "risk_code"]}).
    { unfold base. rewrite !dom_insert_L, dom_empty_L. set_solver. }
    destruct (add_probabilities_cases G proba base) as [-> | [ps ->]];
      eexists _, label, code; (split; [reflexivity |]).
    + repeat split; try done.
      rewrite Hbase. set_solver.
    + repeat split; try done; try (rewrite ?dom_insert_L, Hbase; set_solver).
      rewrite lookup_insert_eq. intros v [= <-]. eauto.
  - intros ts b db' Hin.
    destruct (receive_sensor_data_ok_inv _ _ _ _ _ _ Hin)
      as (d & dev & vt & vs & vg & -> & Hdev & Ht & Hs & Hg).
    rewrite (receive_sensor_data_present _ _ _ _ _ _ _ _ Hdev Ht Hs Hg) in Hin.
    rewrite manual_predict_dict, Ht, Hs, Hg. simpl.
    unfold ingest, h_bind, lift, db_insert, h_ret in Hin.
    destruct (py_float vt) as [temp |]; [| done].
    destruct (py_int vs) as [smoke |]; [| done].
    destruct (py_int vg) as [gas |]; [| done]. simpl.
    destruct (ml_predict G temp smoke gas) as [[[label code] proba] |]; [| done].
    destruct (insert_reading _ _ _ _ _ _ _ _); [| done].
    injection Hin as <- _.
    pose proof (add_probabilities_delete_status G proba label code) as Hdel.
    simpl in Hdel. by rewrite Hdel.
Qed.



End Manual.

Lemma manual_predict_frame_and_shape_witness :
  manual_predict (rt := example_runtime) critical_globals (PDict hot_payload) []
  = (Ok (mkResponse 200 (PDict (list_to_map
       [("risk_level", PStr "CRITICAL"); ("risk_code", PInt 0);
        ("probabilities", PDict (list_to_map
          [("CRITICAL", PFloat (float_lit 1)); ("HIGH", PFloat (float_lit 0));
           ("LOW", PFloat (float_lit 0)); ("MEDIUM", PFloat (float_lit 0))]))]))),
     []).
Proof.
  refine (proj2 (proj2 (manual_predict_frame_and_shape (rt := example_runtime)
                         critical_globals (PDict hot_payload) []))
           "2024-05-01T10:00:00"
           (list_to_map
              [("status", PStr "ok"); ("risk_level", PStr "CRITICAL");
               ("risk_code", PInt 0);
               ("probabilities",
                  PDict (list_to_map
          [("CRITICAL", PFloat (float_lit 1)); ("HIGH", PFloat (float_lit 0));
           ("LOW", PFloat (float_lit 0)); ("MEDIUM", PFloat (float_lit 0))]))])
           [mkRow 1 "ESP32_01" "2024-05-01T10:00:00" (float_lit 65) 600 0
              "CRITICAL" 0] _).
  reflexivity.
Defined.


(** ** Properties of the query routes *)

#[local] Instance by_id_desc_trans : Transitive by_id_desc.
Proof. unfold by_id_desc. intros r1 r2 r3. lia. Qed.

#[local] Instance by_id_desc_total : Total by_id_desc.
Proof. unfold by_id_desc. intros r1 r2. lia. Qed.


Lemma sql_limit_length {A : Type} (limit : Z) (rows : list A) :
  0 ≤ limit → (length (sql_limit limit rows) ≤ Z.to_nat limit)%nat.
Proof.
  intros Hlimit. unfold sql_limit.
  destruct (Z.ltb_spec limit 0); [lia |].
  rewrite length_take. lia.
Qed.


Lemma sublist_elem_of {A : Type} (l k : list A) (x : A) :
  l `sublist_of` k → x ∈ l → x ∈ k.
Proof. intros Hsub Hx. by eapply elem_of_sublist. Qed.

Lemma StronglySorted_sublist {A : Type} (R : relation A) (l k : list A) :
  l `sublist_of` k → StronglySorted R k → StronglySorted R l.
Proof.
  intros Hsub Hk. revert l Hsub.
  induction Hk as [| x k Hk IH Hx]; intros l Hsub.
  - apply sublist_nil_r in Hsub as ->. constructor.
  - apply sublist_cons_r in Hsub as [Hsub | (l' & -> & Hsub)]; [by apply IH |].
    constructor; [by apply IH |].
    apply Forall_forall. intros y Hy.
    rewrite Forall_forall in Hx. apply Hx.
    by apply (sublist_elem_of _ _ _ Hsub).
Qed.





Lemma latest_rows_select (device : option string) (limit : Z) (db : Db) :
  latest_rows device limit db
  = select_latest db (if decide (device = Some "") then None else device) limit.
Proof.
  unfold latest_rows. destruct device as [d |]; [| done].
  case_decide as Hd.
  - by injection Hd as ->.
  - simpl. destruct (String.eqb_spec d ""); [by subst | done].
Qed.




Section Stats.
Context {rt : PyRuntime}.

(** C5: on an empty store the statistics route succeeds with
    total_readings 0, a count of 0 for LOW, MEDIUM and HIGH, a 24-hour count
    of 0, and the integer 0 for avg_temp, avg_smoke, avg_gas and max_temp. *)
Theorem get_stats_empty_store (G : Globals) (cutoff : string) :
  ∃ snapshot distribution window : gmap string pyval,
    get_stats G cutoff [] = (Ok (mkResponse 200 (PDict snapshot)), [])
    ∧ snapshot !! "total_readings" = Some (PInt 0)
    ∧ snapshot !! "risk_distribution" = Some (PDict distribution)
    ∧ distribution !! "LOW" = Some (PInt 0)
    ∧ distribution !! "MEDIUM" = Some (PInt 0)
    ∧ distribution !! "HIGH" = Some (PInt 0)
    ∧ snapshot !! "last_24h" = Some (PDict window)
    ∧ window !! "count" = Some (PInt 0)
    ∧ window !! "avg_temp" = Some (PInt 0)
    ∧ window !! "avg_smoke" = Some (PInt 0)
    ∧ window !! "avg_gas" = Some (PInt 0)
    ∧ window !! "max_temp" = Some (PInt 0).
Proof.
  eexists _, _, _. split; [reflexivity |].
  split; [reflexivity |]. split; [reflexivity |].
  repeat split.
Qed.

Lemma next_rowid_above (db : Db) (r : Row) : r ∈ db → row_id r < next_rowid db.
Proof.
  unfold next_rowid. induction db as [| r' db IH]; [by intros ?%elem_of_nil |].
  rewrite elem_of_cons, fmap_cons. cbn [foldr]. intros [-> | Hr]; [lia |].
  specialize (IH Hr). lia.
Qed.

Lemma insert_reading_primary_key (db db' : Db) (device_id : pyval) (ts : string)
    (temp : float) (smoke gas : Z) (label : string) (code : Z) :
  insert_reading db device_id ts temp smoke gas label code = Ok db' →
  primary_key db → primary_key db'.
Proof.
  unfold insert_reading, primary_key. intros Hins Hkey.
  bind_inv Hins.
  assert (∃ r, db' = db ++ [r] ∧ row_id r = next_rowid db) as (r & -> & Hid).
  { repeat case_match; simplify_eq; eauto. }
  rewrite fmap_app. apply NoDup_app. split; [done |]. split.
  - intros i Hi Hi'. apply list_elem_of_singleton in Hi' as ->.
    apply list_elem_of_fmap in Hi as (r' & Hi & Hr').
    apply next_rowid_above in Hr'. lia.
  - apply NoDup_singleton.
Qed.

(** Ingestion keeps the ids of the table unique: the hypothesis of the
    query properties holds of every store the backend can reach. *)
Lemma receive_sensor_data_primary_key (G : Globals) (ts : string) (data : pyval)
    (db : Db) :
  primary_key db → primary_key (receive_sensor_data G ts data db).2.
Proof.
  intros Hkey. unfold receive_sensor_data.
  destruct (negb (py_truthy data)); [done |].
  unfold h_bind, lift, db_insert, h_ret.
  repeat (case_match; simplify_eq/=); eauto using insert_reading_primary_key.
Qed.

End Stats.

(** ** Further properties of the store and of validation *)

Section Store.
Context {rt : PyRuntime}.

Lemma bind_int_Ok (z z' : Z) : bind_int z = Ok z' → z' = z.
Proof. unfold bind_int. by case_match; intros [= <-]. Qed.

Lemma bind_text_Ok (s s' : string) :
  bind_text s = Ok s' → s' = s ∧ has_lone_surrogate s = false.
Proof. unfold bind_text. by case_match; intros [= <-]. Qed.

Lemma insert_reading_Ok (db db' : Db) (device_id : pyval) (ts : string)
    (temp : float) (smoke gas : Z) (label : string) (code : Z) :
  insert_reading db device_id ts temp smoke gas label code = Ok db' →
  ∃ dev, bind_device device_id = Ok (Some dev)
         ∧ db' = db ++ [mkRow (next_rowid db) dev ts (sqlite_real temp)
                          smoke gas label code].
Proof.
  unfold insert_reading. intros Hins. bind_inv Hins.
  apply bind_int_Ok in Ha0 as ->, Ha1 as ->, Ha3 as ->.
  apply bind_text_Ok in Ha2 as [-> _].
  repeat case_match; simplify_eq; eauto.
Qed.

(** The newest row heads the descending order. *)
Lemma merge_sort_head (rows : list Row) (r : Row) :
  r ∈ rows → (∀ x, x ∈ rows → x = r ∨ row_id x < row_id r) →
  take 1 (merge_sort by_id_desc rows) = [r].
Proof.
  intros Hr Hmax.
  assert (Hsorted : StronglySorted by_id_desc (merge_sort by_id_desc rows))
    by (apply StronglySorted_merge_sort; apply _).
  rewrite <- (merge_sort_Permutation by_id_desc) in Hr.
  assert (Hmax' : ∀ x, x ∈ merge_sort by_id_desc rows → x = r ∨ row_id x < row_id r).
  { intros x Hx. apply Hmax. by rewrite <- (merge_sort_Permutation by_id_desc). }
  destruct (merge_sort by_id_desc rows) as [| x sorted]; [by apply elem_of_nil in Hr |].
  destruct (Hmax' x) as [-> | Hlt]; [left | done |].
  apply elem_of_cons in Hr as [-> | Hr]; [done |].
  apply StronglySorted_inv in Hsorted as [_ Hx].
  rewrite Forall_forall in Hx. specialize (Hx r Hr). unfold by_id_desc in Hx. lia.
Qed.

Lemma sql_limit_one {A : Type} (rows : list A) : sql_limit 1 rows = take 1 rows.
Proof. done. Qed.

(** X1: a reading that ingestion has just stored is what the latest-readings
    query with limit 1 returns, for all devices and for its own device. *)
Theorem ingested_reading_is_latest (G : Globals) (ts : string) (data : pyval)
    (db db' : Db) (b : pyval) :
  receive_sensor_data G ts data db = (Ok (mkResponse 200 b), db') →
  ∃ r, db' = db ++ [r]
       ∧ row_id r = next_rowid db
       ∧ row_timestamp r = ts
       ∧ latest_rows None 1 db' = [r]
       ∧ (row_device_id r ≠ "" → latest_rows (Some (row_device_id r)) 1 db' = [r]).
Proof.
  intros Hin.
  destruct (receive_sensor_data_ok_inv _ _ _ _ _ _ Hin)
    as (d & dev & vt & vs & vg & -> & Hdev & Ht & Hs & Hg).
  rewrite (receive_sensor_data_present _ _ _ _ _ _ _ _ Hdev Ht Hs Hg) in Hin.
  unfold ingest, h_bind, lift, db_insert, h_ret in Hin.
  destruct (py_float vt) as [temp |]; [| done].
  destruct (py_int vs) as [smoke |]; [| done].
  destruct (py_int vg) as [gas |]; [| done].
  destruct (ml_predict G temp smoke gas) as [[[label code] proba] |]; [| done].
  destruct (insert_reading _ _ _ _ _ _ _ _) as [db'' |] eqn:Hins; [| done].
  injection Hin as _ <-.
  apply insert_reading_Ok in Hins as (text & _ & ->).
  set (r := mkRow _ _ _ _ _ _ _ _).
  assert (Hnewest : ∀ x, x ∈ db ++ [r] → x = r ∨ row_id x < row_id r).
  { intros x [Hx | ->%list_elem_of_singleton]%elem_of_app; [right | by left].
    by apply next_rowid_above. }
  exists r. do 3 (split; [done |]). split.
  - rewrite latest_rows_select, decide_False by done.
    unfold select_latest. rewrite sql_limit_one.
    apply merge_sort_head; [| done]. apply elem_of_app. right. by left.
  - intros Hdevice.
    rewrite latest_rows_select, decide_False by congruence.
    unfold select_latest. rewrite sql_limit_one.
    apply merge_sort_head.
    + apply list_elem_of_filter. split; [done |]. apply elem_of_app. right. by left.
    + intros x [_ Hx]%list_elem_of_filter. by apply Hnewest.
Qed.

(** X2: the store is an append-only log with unique ids: ingestion leaves the
    rows it found in place, adds at most one row, and keeps ids unique. *)
Theorem ingestion_is_append_only (G : Globals) (ts : string) (data : pyval) (db : Db) :
  db `prefix_of` (receive_sensor_data G ts data db).2
  ∧ (length (receive_sensor_data G ts data db).2 ≤ S (length db))%nat
  ∧ (primary_key db → primary_key (receive_sensor_data G ts data db).2).
Proof.
  split; [| split; [| apply receive_sensor_data_primary_key]].
  - unfold receive_sensor_data.
    destruct (negb (py_truthy data)); [done |].
    unfold h_bind, lift, db_insert, h_ret.
    repeat (case_match; simplify_eq/=); try done.
    match goal with H : insert_reading _ _ _ _ _ _ _ _ = Ok _ |- _ =>
      apply insert_reading_Ok in H as (text & _ & ->) end.
    by apply prefix_app_r.
  - unfold receive_sensor_data.
    destruct (negb (py_truthy data)); [simpl; lia |].
    unfold h_bind, lift, db_insert, h_ret.
    repeat (case_match; simplify_eq/=); try lia.
    match goal with H : insert_reading _ _ _ _ _ _ _ _ = Ok _ |- _ =>
      apply insert_reading_Ok in H as (text & _ & ->) end.
    rewrite length_app. simpl. lia.
Qed.

(** The order in which SQLite compares two texts is transitive. *)
Lemma string_leb_trans (s1 s2 s3 : string) :
  String.leb s1 s2 = true → String.leb s2 s3 = true → String.leb s1 s3 = true.
Proof.
  unfold String.leb. revert s2 s3.
  induction s1 as [| c1 s1 IH]; intros [| c2 s2] [| c3 s3]; simpl; try done.
  unfold Ascii.compare.
  destruct (N.compare_spec (N_of_ascii c1) (N_of_ascii c2)) as [H12 | H12 | H12],
    (N.compare_spec (N_of_ascii c2) (N_of_ascii c3)) as [H23 | H23 | H23],
    (N.compare_spec (N_of_ascii c1) (N_of_ascii c3)) as [H13 | H13 | H13];
    try done; try lia.
  apply IH.
Qed.

Lemma filter_length_mono {A : Type} (P Q : A → Prop)
    `{!∀ x, Decision (P x), !∀ x, Decision (Q x)} (l : list A) :
  (∀ x, P x → Q x) → (length (filter P l) ≤ length (filter Q l))%nat.
Proof.
  intros HPQ. induction l as [| x l IH]; [done |].
  rewrite !filter_cons.
  destruct (decide (P x)) as [HP |], (decide (Q x)) as [| HQ]; simpl; try lia.
  destruct HQ. by apply HPQ.
Qed.

(** X3: the statistics route takes its cutoff from the clock, so two calls
    differ in it.  With no write in between, a later call answers the same
    total_readings, risk_distribution and model as the earlier one, and its
    24-hour count can only be smaller: a reading never enters the window
    again. *)
Theorem get_stats_window_shrinks (G : Globals) (cutoff cutoff' : string) (db : Db)
    (earlier later : gmap string pyval) :
  String.leb cutoff cutoff' = true →
  (get_stats G cutoff db).1 = Ok (mkResponse 200 (PDict earlier)) →
  (get_stats G cutoff' db).1 = Ok (mkResponse 200 (PDict later)) →
  later !! "total_readings" = earlier !! "total_readings"
  ∧ later !! "risk_distribution" = earlier !! "risk_distribution"
  ∧ later !! "model" = earlier !! "model"
  ∧ ∃ (window window' : gmap string pyval) (count count' : Z),
      earlier !! "last_24h" = Some (PDict window)
      ∧ later !! "last_24h" = Some (PDict window')
      ∧ window !! "count" = Some (PInt count)
      ∧ window' !! "count" = Some (PInt count')
      ∧ 0 ≤ count' ≤ count
      ∧ (count = 0 → window' = window).
Proof.
  intros Hcutoff. unfold get_stats, h_bind, db_read, lift, h_ret.
  assert (Hcount : (length (select_since db cutoff') ≤ length (select_since db cutoff))%nat).
  { unfold select_since. rewrite !length_fmap. apply filter_length_mono.
    intros r Hr. by apply (string_leb_trans _ cutoff'). }
  destruct (match select_since db cutoff with [] => _ | _ :: _ => _ end)
    as [[[[avg_temp avg_smoke] avg_gas] max_temp] | e] eqn:Hearlier; [| done].
  destruct (match select_since db cutoff' with [] => _ | _ :: _ => _ end)
    as [[[[avg_temp' avg_smoke'] avg_gas'] max_temp'] | e'] eqn:Hlater; [| done].
  intros [= <-] [= <-].
  do 3 (split; [reflexivity |]).
  eexists _, _, _, _. do 4 (split; [reflexivity |]).
  split; [lia |].
  intros Hzero.
  destruct (select_since db cutoff); [| done].
  destruct (select_since db cutoff'); [| simpl in Hcount; lia].
  by injection Hearlier as <- <- <- <-; injection Hlater as <- <- <- <-.
Qed.

(** X4: a payload that lacks a required field is answered with status 400 and
    an error naming the first missing field, in the order device_id,
    temperature, smoke, gas; nothing is stored. *)
Theorem missing_field_is_named (G : Globals) (ts : string) (d : gmap string pyval)
    (db : Db) (present absent : list string) (field : string) :
  ["device_id"; "temperature"; "smoke"; "gas"] = present ++ field :: absent →
  d ≠ ∅ → (∀ f, f ∈ present → is_Some (d !! f)) → d !! field = None →
  receive_sensor_data G ts (PDict d) db
  = (Ok (mkResponse 400 (error_body ("Missing field: " +:+ field))), db).
Proof.
  intros Hfields Hne Hpresent Habsent.
  assert (Htruthy : py_truthy (PDict d) = true).
  { simpl. apply negb_true_iff, Nat.eqb_neq. by rewrite map_size_empty_iff. }
  assert (Hfirst : first_missing (present ++ field :: absent) (PDict d) = Ok (Some field)).
  { clear Hfields. induction present as [| f present IH]; simpl.
    - by rewrite Habsent, bool_decide_eq_false_2 by (by intros [??]).
    - rewrite bool_decide_eq_true_2 by (apply Hpresent; by left). simpl.
      apply IH. intros f' Hf'. apply Hpresent. by right. }
  unfold receive_sensor_data. rewrite Htruthy, Hfields. cbn [negb].
  unfold h_bind at 1. unfold lift at 1. by rewrite Hfirst.
Qed.

End Store.

Lemma ingested_reading_is_latest_witness :
  ∃ r, [hot_row] = [] ++ [r]
       ∧ row_id r = next_rowid []
       ∧ row_timestamp r = "2024-05-01T10:00:00"
       ∧ latest_rows None 1 [hot_row] = [r]
       ∧ (row_device_id r ≠ "" → latest_rows (Some (row_device_id r)) 1 [hot_row] = [r]).
Proof.
  refine (ingested_reading_is_latest (rt := example_runtime) initial_globals
            "2024-05-01T10:00:00" (PDict hot_payload) [] [hot_row]
            (PDict (list_to_map [("status", PStr "ok"); ("risk_level", PStr "HIGH");
                                 ("risk_code", PInt 2)])) _).
  reflexivity.
Defined.

Lemma missing_field_is_named_witness :
  receive_sensor_data (rt := example_runtime) initial_globals "2024-05-01T10:00:00"
    (PDict (list_to_map [("device_id", PStr "ESP32_01"); ("temperature", PInt 20)])) []
  = (Ok (mkResponse 400 (error_body "Missing field: smoke")), []).
Proof.
  refine (missing_field_is_named (rt := example_runtime) initial_globals
            "2024-05-01T10:00:00"
            (list_to_map [("device_id", PStr "ESP32_01"); ("temperature", PInt 20)])
            [] ["device_id"; "temperature"] ["gas"] "smoke" _ _ _ _).
  - reflexivity.
  - intros Hempty.
    apply (f_equal (λ m : gmap string pyval, m !! "device_id")) in Hempty.
    discriminate Hempty.
  - intros f Hf. apply elem_of_cons in Hf as [-> | Hf]; [by eexists |].
    apply list_elem_of_singleton in Hf as ->. by eexists.
  - reflexivity.
Defined.

Lemma get_stats_window_shrinks_witness :
  garage_window_stats !! "total_readings" = two_device_stats !! "total_readings"
  ∧ garage_window_stats !! "risk_distribution"
    = two_device_stats !! "risk_distribution"
  ∧ garage_window_stats !! "model" = two_device_stats !! "model"
  ∧ ∃ (window window' : gmap string pyval) (count count' : Z),
      two_device_stats !! "last_24h" = Some (PDict window)
      ∧ garage_window_stats !! "last_24h" = Some (PDict window')
      ∧ window !! "count" = Some (PInt count)
      ∧ window' !! "count" = Some (PInt count')
      ∧ 0 ≤ count' ≤ count
      ∧ (count = 0 → window' = window).
Proof.
  refine (get_stats_window_shrinks (rt := example_runtime) initial_globals
            "2024-04-30T12:00:00" "2024-05-01T10:00:01" two_device_db
            two_device_stats garage_window_stats _ _ _); reflexivity.
Defined.

(** ** Outcomes of ingestion *)

Section IngestionOutcomes.
Context {rt : PyRuntime}.

Lemma ingest_outcome (G : Globals) (ts : string) (dev vt vs vg : pyval) (db : Db) :
  (∃ e, ingest G ts dev vt vs vg db = (Raise e, db))
  ∨ ∃ temp smoke gas label code proba text,
      py_float vt = Ok temp ∧ py_int vs = Ok smoke ∧ py_int vg = Ok gas
      ∧ ml_predict G temp smoke gas = Ok (label, code, proba)
      ∧ bind_device dev = Ok (Some text)
      ∧ insert_reading db dev ts temp smoke gas label code
        = Ok (db ++ [mkRow (next_rowid db) text ts (sqlite_real temp)
                       smoke gas label code])
      ∧ ingest G ts dev vt vs vg db
        = (Ok (mkResponse 200 (PDict (add_probabilities G proba
                 (list_to_map [("status", PStr "ok"); ("risk_level", PStr label);
                               ("risk_code", PInt code)])))),
           db ++ [mkRow (next_rowid db) text ts (sqlite_real temp)
                    smoke gas label code]).
Proof.
  unfold ingest, h_bind, lift, db_insert, h_ret.
  destruct (py_float vt) as [temp |]; [| eauto].
  destruct (py_int vs) as [smoke |]; [| eauto].
  destruct (py_int vg) as [gas |]; [| eauto].
  destruct (ml_predict G temp smoke gas) as [[[label code] proba] |] eqn:Hml; [| eauto].
  destruct (insert_reading _ _ _ _ _ _ _ _) as [db' |] eqn:Hins; [| eauto].
  destruct (insert_reading_Ok _ _ _ _ _ _ _ _ _ Hins) as (text & Hdev & ->).
  right. by exists temp, smoke, gas, label, code, proba, text.
Qed.

Lemma receive_sensor_data_outcome (G : Globals) (ts : string) (data : pyval) (db : Db) :
  (∃ e, receive_sensor_data G ts data db = (Raise e, db))
  ∨ (∃ msg, receive_sensor_data G ts data db
            = (Ok (mkResponse 400 (error_body msg)), db))
  ∨ ∃ d dev vt vs vg,
      data = PDict d ∧ d !! "device_id" = Some dev ∧ d !! "temperature" = Some vt
      ∧ d !! "smoke" = Some vs ∧ d !! "gas" = Some vg
      ∧ receive_sensor_data G ts data db = ingest G ts dev vt vs vg db.
Proof.
  destruct (py_truthy data) eqn:Htruthy.
  2: { right; left. exists "No JSON body".
       unfold receive_sensor_data. by rewrite Htruthy. }
  destruct (first_missing ["device_id"; "temperature"; "smoke"; "gas"] data)
    as [[field |] | e] eqn:Hmissing.
  - right; left. exists ("Missing field: " +:+ field).
    unfold receive_sensor_data, h_bind, lift. by rewrite Htruthy, Hmissing.
  - destruct data as [| | | | | | d];
      try (left; exists TypeError;
           unfold receive_sensor_data, h_bind, lift; by rewrite Htruthy, Hmissing).
    apply first_missing_dict_None in Hmissing
      as ([dev Hdev] & [vt Ht] & [vs Hs] & [vg Hg]).
    right; right. exists d, dev, vt, vs, vg. do 5 (split; [done |]).
    by apply receive_sensor_data_present.
  - left. exists e.
    unfold receive_sensor_data, h_bind, lift. by rewrite Htruthy, Hmissing.
Qed.

(** X5: a request that ingestion does not answer with status 200 stores
    nothing: when the handler raises, or answers 400, the store is the one it
    found. *)
Theorem failed_ingestion_stores_nothing (G : Globals) (ts : string) (data : pyval)
    (db : Db) :
  (∀ e, (receive_sensor_data G ts data db).1 = Raise e →
        (receive_sensor_data G ts data db).2 = db)
  ∧ (∀ resp, (receive_sensor_data G ts data db).1 = Ok resp →
        status_code resp = 400 ∨ status_code resp = 200)
  ∧ (∀ resp, (receive_sensor_data G ts data db).1 = Ok resp →
        status_code resp = 400 → (receive_sensor_data G ts data db).2 = db).
Proof.
  destruct (receive_sensor_data_outcome G ts data db)
    as [[e ->] | [[msg ->] | (d & dev & vt & vs & vg & _ & _ & _ & _ & _ & ->)]];
    [by repeat split | repeat split; intros ? [= <-]; auto |].
  destruct (ingest_outcome G ts dev vt vs vg db)
    as [[e ->] | (? & ? & ? & ? & ? & ? & ? & _ & _ & _ & _ & _ & _ & ->)];
    [by repeat split |].
  repeat split; [done | intros ? [= <-]; auto | intros ? [= <-] [=]].
Qed.

(** X6: what a successful ingestion stores is what it answers: the new row
    holds the device id as it was bound, the coerced temperature as the REAL
    column keeps it (the sign of -0.0 is lost), the coerced smoke and gas,
    and the label and code the classifier gave for exactly the coerced
    values; the response carries that label and code with status ok. *)
Theorem stored_reading_matches_response (G : Globals) (ts : string) (data : pyval)
    (db db' : Db) (b : gmap string pyval) :
  receive_sensor_data G ts data db = (Ok (mkResponse 200 (PDict b)), db') →
  ∃ d dev vt vs vg temp r proba,
    data = PDict d ∧ db' = db ++ [r]
    ∧ d !! "device_id" = Some dev ∧ bind_device dev = Ok (Some (row_device_id r))
    ∧ d !! "temperature" = Some vt ∧ py_float vt = Ok temp
    ∧ row_temperature r = sqlite_real temp
    ∧ d !! "smoke" = Some vs ∧ py_int vs = Ok (row_smoke r)
    ∧ d !! "gas" = Some vg ∧ py_int vg = Ok (row_gas r)
    ∧ ml_predict G temp (row_smoke r) (row_gas r)
      = Ok (row_risk_level r, row_risk_code r, proba)
    ∧ b !! "status" = Some (PStr "ok")
    ∧ b !! "risk_level" = Some (PStr (row_risk_level r))
    ∧ b !! "risk_code" = Some (PInt (row_risk_code r)).
Proof.
  intros Hin.
  destruct (receive_sensor_data_outcome G ts data db)
    as [[e He] | [[msg Hmsg] | (d & dev & vt & vs & vg & -> & Hd & Ht & Hs & Hg & Hrun)]];
    [congruence | congruence |].
  rewrite Hrun in Hin.
  destruct (ingest_outcome G ts dev vt vs vg db)
    as [[e He] | (temp & smoke & gas & label & code & proba & text
                  & Et & Es & Eg & Hml & Hdev & _ & Hrun')]; [congruence |].
  destruct (add_probabilities_cases G proba
              (list_to_map [("status", PStr "ok"); ("risk_level", PStr label);
                            ("risk_code", PInt code)])) as [Hb | [ps Hb]];
    rewrite Hb in Hrun'; rewrite Hrun' in Hin; injection Hin as <- <-;
    eexists d, dev, vt, vs, vg, temp, _, proba; by repeat split.
Qed.

End IngestionOutcomes.

Section StoreInvariants.
Context {rt : PyRuntime}.

Lemma insert_reading_checks (db db' : Db) (device_id : pyval) (ts : string)
    (temp : float) (smoke gas : Z) (label : string) (code : Z) :
  insert_reading db device_id ts temp smoke gas label code = Ok db' →
  int64_ok smoke = true ∧ int64_ok gas = true ∧ int64_ok code = true
  ∧ temp ≠ S754_nan ∧ int64_ok (next_rowid db) = true.
Proof.
  unfold insert_reading, bind_int. intros Hins. bind_inv Hins.
  repeat case_match; simplify_eq; done.
Qed.

Lemma next_rowid_positive (db : Db) : 1 ≤ next_rowid db.
Proof.
  unfold next_rowid.
  assert (0 ≤ foldr Z.max 0 (row_id <$> db)); [| lia].
  induction db as [| r db IH]; [done |]. rewrite fmap_cons. cbn [foldr]. lia.
Qed.

Lemma rule_based_ingest (G : Globals) (ts device : string) (vt vs vg : pyval)
    (temp : float) (smoke gas : Z) (db : Db) :
  predictor G = None →
  py_float vt = Ok temp → py_int vs = Ok smoke → py_int vg = Ok gas →
  ingest G ts (PStr device) vt vs vg db =
    let '(label, code, _) := rule_predict temp smoke gas in
    if has_lone_surrogate device then (Raise UnicodeEncodeError, db)
    else if negb (int64_ok smoke && int64_ok gas) then (Raise OverflowError, db)
    else if negb (int64_ok (next_rowid db)) then (Raise OperationalError, db)
    else if is_nan temp then (Raise IntegrityError, db)
    else (Ok (mkResponse 200 (PDict (list_to_map
                [("status", PStr "ok"); ("risk_level", PStr label);
                 ("risk_code", PInt code)]))),
          db ++ [mkRow (next_rowid db) device ts (sqlite_real temp)
                   smoke gas label code]).
Proof.
  intros HG Et Es Eg.
  unfold ingest, h_bind, lift. rewrite Et, Es, Eg, ml_predict_not_loaded by done.
  assert (∃ label code, rule_predict temp smoke gas = (label, code, None)
                        ∧ int64_ok code = true
                        ∧ has_lone_surrogate label = false)
    as (label & code & -> & Hcode & Hlabel).
  { destruct (rule_predict_cases temp smoke gas) as [-> | [-> | ->]]; by eexists _, _. }
  unfold db_insert, insert_reading, bind_int, bind_text, add_probabilities, h_ret.
  cbn [bind_device]. unfold bind_text.
  destruct (has_lone_surrogate device); [done |].
  cbn [mbind result_bind].
  destruct (int64_ok smoke); [| done]. destruct (int64_ok gas); [| done].
  rewrite Hcode, Hlabel. cbn [andb negb mbind result_bind].
  destruct (int64_ok (next_rowid db)); [| done].
  by destruct temp.
Qed.

(** X7: with no model loaded, ingestion of an object payload whose device id
    is a string and whose three readings coerce is decided by the binding of
    the parameters and the table alone, in this order: a device id with a
    lone surrogate is a UnicodeEncodeError, smoke or gas beyond 64 bits an
    OverflowError, an exhausted id an OperationalError, a NaN temperature an
    IntegrityError; every other reading, whatever its magnitude, is stored
    (the temperature as the REAL column keeps it) and answered with the
    rule-based label and code. *)
Theorem rule_based_ingestion_outcome (G : Globals) (ts : string)
    (d : gmap string pyval) (db : Db) (device : string) (vt vs vg : pyval)
    (temp : float) (smoke gas : Z) :
  predictor G = None →
  d !! "device_id" = Some (PStr device) → d !! "temperature" = Some vt →
  d !! "smoke" = Some vs → d !! "gas" = Some vg →
  py_float vt = Ok temp → py_int vs = Ok smoke → py_int vg = Ok gas →
  receive_sensor_data G ts (PDict d) db =
    let '(label, code, _) := rule_predict temp smoke gas in
    if has_lone_surrogate device then (Raise UnicodeEncodeError, db)
    else if negb (int64_ok smoke && int64_ok gas) then (Raise OverflowError, db)
    else if negb (int64_ok (next_rowid db)) then (Raise OperationalError, db)
    else if is_nan temp then (Raise IntegrityError, db)
    else (Ok (mkResponse 200 (PDict (list_to_map
                [("status", PStr "ok"); ("risk_level", PStr label);
                 ("risk_code", PInt code)]))),
          db ++ [mkRow (next_rowid db) device ts (sqlite_real temp)
                   smoke gas label code]).
Proof.
  intros HG Hdev Ht Hs Hg Et Es Eg.
  rewrite (receive_sensor_data_present _ _ _ _ _ _ _ _ Hdev Ht Hs Hg).
  by apply rule_based_ingest.
Qed.

(** X8: every row that ingestion adds satisfies the table's constraints and
    carries the code that belongs to its label: with well-formed rows before,
    the rows are well-formed after, whatever the payload, the model and the
    outcome. *)
Theorem ingestion_keeps_rows_well_formed (G : Globals) (ts : string)
    (data : pyval) (db : Db) :
  Forall row_ok db → Forall row_ok (receive_sensor_data G ts data db).2.
Proof.
  intros Hdb.
  destruct (receive_sensor_data_outcome G ts data db)
    as [[e ->] | [[msg ->] | (d & dev & vt & vs & vg & _ & _ & _ & _ & _ & ->)]];
    [done | done |].
  destruct (ingest_outcome G ts dev vt vs vg db)
    as [[e ->] | (temp & smoke & gas & label & code & proba & text
                  & _ & _ & _ & Hml & _ & Hins & ->)]; [done |].
  apply Forall_app. split; [done |]. apply Forall_singleton.
  apply insert_reading_checks in Hins as (? & ? & ? & ? & ?).
  pose proof (next_rowid_positive db).
  apply ml_predict_code in Hml.
  repeat split; try done. simpl. by destruct temp.
Qed.

Lemma ids_increasing_reverse (rows : list Row) :
  ids_increasing rows → StronglySorted by_id_desc (reverse rows).
Proof.
  unfold ids_increasing. induction 1 as [| r rows Hrows IH Hr]; [constructor |].
  rewrite reverse_cons. apply StronglySorted_app. split; [| split; [done |]].
  - intros r1 r2 Hr1 ->%list_elem_of_singleton. rewrite elem_of_reverse in Hr1.
    rewrite Forall_forall in Hr. specialize (Hr r1 Hr1). unfold by_id_desc. lia.
  - repeat constructor.
Qed.

Lemma ids_increasing_primary_key (db : Db) : ids_increasing db → primary_key db.
Proof.
  unfold ids_increasing, primary_key.
  induction 1 as [| r rows Hrows IH Hr]; [constructor |].
  rewrite fmap_cons. apply NoDup_cons. split; [| done].
  intros (r' & Hid & Hr')%list_elem_of_fmap.
  rewrite Forall_forall in Hr. specialize (Hr r' Hr'). lia.
Qed.

Lemma merge_sort_increasing (rows : list Row) :
  ids_increasing rows → merge_sort by_id_desc rows = reverse rows.
Proof.
  intros Hrows.
  apply (StronglySorted_unique_strong by_id_desc).
  - intros r1 r2 Hr1 Hr2 H12 H21. unfold by_id_desc in *.
    rewrite merge_sort_Permutation in Hr1. rewrite elem_of_reverse in Hr2.
    apply ids_increasing_primary_key in Hrows.
    apply (NoDup_fmap_1 row_id) in Hrows as Hnodup.
    apply list_elem_of_lookup in Hr1 as [i Hi], Hr2 as [j Hj].
    assert (i = j); [| congruence].
    apply (NoDup_lookup (row_id <$> rows) i j (row_id r1)); [done | |].
    + by rewrite list_lookup_fmap, Hi.
    + rewrite list_lookup_fmap, Hj. simpl. f_equal. lia.
  - apply StronglySorted_merge_sort; apply _.
  - by apply ids_increasing_reverse.
  - by rewrite merge_sort_Permutation, reverse_Permutation.
Qed.

(** X9: ids grow along the log, and ingestion keeps it so; hence "newest
    first" is the reverse of the order of arrival: the latest-readings query
    returns the last readings that arrived (of the device asked for), the most
    recent one first. *)
Theorem latest_rows_is_reverse_arrival (G : Globals) (ts : string) (data : pyval)
    (db : Db) :
  ids_increasing db →
  ids_increasing (receive_sensor_data G ts data db).2
  ∧ (∀ limit, latest_rows None limit db = sql_limit limit (reverse db))
  ∧ (∀ limit device, device ≠ "" →
       latest_rows (Some device) limit db
       = sql_limit limit (reverse (filter (λ r, row_device_id r = device) db))).
Proof.
  intros Hdb. split; [| split].
  - destruct (receive_sensor_data_outcome G ts data db)
      as [[e ->] | [[msg ->] | (d & dev & vt & vs & vg & _ & _ & _ & _ & _ & ->)]];
      [done | done |].
    destruct (ingest_outcome G ts dev vt vs vg db)
      as [[e ->] | (temp & smoke & gas & label & code & proba & text
                    & _ & _ & _ & _ & _ & _ & ->)]; [done |].
    apply StronglySorted_app. split; [| split; [done | repeat constructor]].
    intros r1 r2 Hr1 ->%list_elem_of_singleton. by apply next_rowid_above.
  - intros limit. rewrite latest_rows_select, decide_False by done.
    unfold select_latest. by rewrite merge_sort_increasing.
  - intros limit device Hdevice.
    rewrite latest_rows_select, decide_False by congruence.
    unfold select_latest. rewrite merge_sort_increasing; [done |].
    eapply StronglySorted_sublist; [apply sublist_filter | done].
Qed.

End StoreInvariants.

Lemma stored_reading_matches_response_witness :
  ∃ d dev vt vs vg temp r proba,
    PDict hot_payload = PDict d ∧ [hot_row] = [] ++ [r]
    ∧ d !! "device_id" = Some dev
    ∧ bind_device (rt := example_runtime) dev = Ok (Some (row_device_id r))
    ∧ d !! "temperature" = Some vt
    ∧ py_float (rt := example_runtime) vt = Ok temp
    ∧ row_temperature r = sqlite_real temp
    ∧ d !! "smoke" = Some vs
    ∧ py_int (rt := example_runtime) vs = Ok (row_smoke r)
    ∧ d !! "gas" = Some vg
    ∧ py_int (rt := example_runtime) vg = Ok (row_gas r)
    ∧ ml_predict initial_globals temp (row_smoke r) (row_gas r)
      = Ok (row_risk_level r, row_risk_code r, proba)
    ∧ (list_to_map [("status", PStr "ok"); ("risk_level", PStr "HIGH");
                    ("risk_code", PInt 2)] : gmap string pyval) !! "status"
      = Some (PStr "ok")
    ∧ (list_to_map [("status", PStr "ok"); ("risk_level", PStr "HIGH");
                    ("risk_code", PInt 2)] : gmap string pyval) !! "risk_level"
      = Some (PStr (row_risk_level r))
    ∧ (list_to_map [("status", PStr "ok"); ("risk_level", PStr "HIGH");
                    ("risk_code", PInt 2)] : gmap string pyval) !! "risk_code"
      = Some (PInt (row_risk_code r)).
Proof.
  refine (stored_reading_matches_response (rt := example_runtime) initial_globals
            "2024-05-01T10:00:00" (PDict hot_payload) [] [hot_row]
            (list_to_map [("status", PStr "ok"); ("risk_level", PStr "HIGH");
                          ("risk_code", PInt 2)]) _).
  reflexivity.
Defined.

Lemma rule_based_ingestion_outcome_witness :
  receive_sensor_data (rt := example_runtime) initial_globals "2024-05-01T10:00:00"
    (PDict (<["temperature" := PFloat (S754_zero true)]> hot_payload)) []
  = (Ok (mkResponse 200 (PDict (list_to_map
           [("status", PStr "ok"); ("risk_level", PStr "MEDIUM");
            ("risk_code", PInt 1)]))),
     [mkRow 1 "ESP32_01" "2024-05-01T10:00:00" (S754_zero false) 600 0
        "MEDIUM" 1]).
Proof.
  refine (rule_based_ingestion_outcome (rt := example_runtime) initial_globals
            "2024-05-01T10:00:00"
            (<["temperature" := PFloat (S754_zero true)]> hot_payload) []
            "ESP32_01" (PFloat (S754_zero true)) (PInt 600) (PInt 0)
            (S754_zero true) 600 0 _ _ _ _ _ _ _ _); reflexivity.
Defined.

Lemma ingestion_keeps_rows_well_formed_witness :
  Forall row_ok two_device_db
  ∧ Forall row_ok
      (receive_sensor_data (rt := example_runtime) initial_globals
         "2024-05-01T10:00:04" (PDict hot_payload) two_device_db).2.
Proof.
  assert (Hdb : Forall row_ok two_device_db).
  { repeat constructor; done. }
  split; [exact Hdb |].
  exact (ingestion_keeps_rows_well_formed (rt := example_runtime) initial_globals
           "2024-05-01T10:00:04" (PDict hot_payload) two_device_db Hdb).
Defined.

Lemma latest_rows_is_reverse_arrival_witness :
  ids_increasing two_device_db
  ∧ ids_increasing
      (receive_sensor_data (rt := example_runtime) initial_globals
         "2024-05-01T10:00:04" (PDict hot_payload) two_device_db).2
  ∧ (∀ limit, latest_rows None limit two_device_db
              = sql_limit limit (reverse two_device_db))
  ∧ (∀ limit device, device ≠ "" →
       latest_rows (Some device) limit two_device_db
       = sql_limit limit
           (reverse (filter (λ r, row_device_id r = device) two_device_db))).
Proof.
  assert (Hdb : ids_increasing two_device_db).
  { repeat constructor. }
  split; [exact Hdb |].
  exact (latest_rows_is_reverse_arrival (rt := example_runtime) initial_globals
           "2024-05-01T10:00:04" (PDict hot_payload) two_device_db Hdb).
Defined.


(** ** The query routes *)

Section QueryRoutes.
Context {rt : PyRuntime}.

(** X10: the devices route only reads, and lists each device id that some
    stored reading carries exactly once, and no other. *)
Theorem get_devices_distinct_complete (db : Db) :
  ∃ devices,
    get_devices db = (Ok (mkResponse 200 (PList (PStr <$> devices))), db)
    ∧ NoDup devices
    ∧ ∀ device, device ∈ devices ↔ ∃ r, r ∈ db ∧ row_device_id r = device.
Proof.
  exists (sql_distinct (row_device_id <$> db)). unfold sql_distinct.
  split; [done |].
  split; [rewrite reverse_Permutation; apply NoDup_remove_dups |].
  intros device.
  rewrite elem_of_reverse, elem_of_remove_dups, elem_of_reverse, list_elem_of_fmap.
  naive_solver.
Qed.

Lemma filter_three_lengths {A : Type} (P1 P2 P3 : A → Prop)
    `{!∀ x, Decision (P1 x), !∀ x, Decision (P2 x), !∀ x, Decision (P3 x)}
    (l : list A) :
  (∀ x, P1 x → P2 x → False) → (∀ x, P1 x → P3 x → False) →
  (∀ x, P2 x → P3 x → False) →
  (length (filter P1 l) + length (filter P2 l) + length (filter P3 l) ≤ length l)%nat
  ∧ (Forall (λ x, P1 x ∨ P2 x ∨ P3 x) l →
     (length (filter P1 l) + length (filter P2 l) + length (filter P3 l))%nat
     = length l).
Proof.
  intros H12 H13 H23. induction l as [| x l [IHle IHeq]]; [done |].
  rewrite Forall_cons, !filter_cons.
  destruct (decide (P1 x)), (decide (P2 x)), (decide (P3 x));
    try (exfalso; by eauto); cbn [length];
    (split; [lia | intros [Hx Hl]; specialize (IHeq Hl); try lia; naive_solver]).
Qed.

Lemma count_risk_bounds (db : Db) :
  0 ≤ count_risk db "LOW" ∧ 0 ≤ count_risk db "MEDIUM" ∧ 0 ≤ count_risk db "HIGH"
  ∧ count_risk db "LOW" + count_risk db "MEDIUM" + count_risk db "HIGH"
    ≤ Z.of_nat (length db)
  ∧ (Forall (λ r, row_risk_level r ∈ ["LOW"; "MEDIUM"; "HIGH"]) db →
     count_risk db "LOW" + count_risk db "MEDIUM" + count_risk db "HIGH"
     = Z.of_nat (length db)).
Proof.
  unfold count_risk. do 3 (split; [lia |]).
  destruct (filter_three_lengths
              (λ r, row_risk_level r = "LOW") (λ r, row_risk_level r = "MEDIUM")
              (λ r, row_risk_level r = "HIGH") db) as [Hle Heq]; [congruence.. |].
  rewrite <- !Nat2Z.inj_add. split; [apply Nat2Z.inj_le; exact Hle |].
  intros Hdb. f_equal. apply Heq.
  eapply Forall_impl; [done |]. intros r. rewrite !elem_of_cons, elem_of_nil.
  naive_solver.
Qed.

(** X11: in every statistics snapshot the three risk counts are
    non-negative and together never exceed total_readings (the number of
    stored rows); they add up to it when every stored label is LOW, MEDIUM or
    HIGH.  The 24-hour count is the number of rows whose timestamp is not
    before the cutoff, at most total_readings, and when it is 0 the three
    averages and the maximum are the integer 0. *)
Theorem get_stats_counts (G : Globals) (cutoff : string) (db : Db) (resp : response) :
  (get_stats G cutoff db).1 = Ok resp →
  ∃ (snapshot distribution window : gmap string pyval) (low medium high count : Z),
    resp = mkResponse 200 (PDict snapshot)
    ∧ snapshot !! "total_readings" = Some (PInt (Z.of_nat (length db)))
    ∧ snapshot !! "risk_distribution" = Some (PDict distribution)
    ∧ distribution !! "LOW" = Some (PInt low)
    ∧ distribution !! "MEDIUM" = Some (PInt medium)
    ∧ distribution !! "HIGH" = Some (PInt high)
    ∧ 0 ≤ low ∧ 0 ≤ medium ∧ 0 ≤ high
    ∧ low + medium + high ≤ Z.of_nat (length db)
    ∧ (Forall (λ r, row_risk_level r ∈ ["LOW"; "MEDIUM"; "HIGH"]) db →
       low + medium + high = Z.of_nat (length db))
    ∧ snapshot !! "last_24h" = Some (PDict window)
    ∧ window !! "count" = Some (PInt count)
    ∧ count = Z.of_nat (length (filter
                (λ r, String.leb cutoff (row_timestamp r) = true) db))
    ∧ 0 ≤ count ≤ Z.of_nat (length db)
    ∧ (count = 0 →
       window !! "avg_temp" = Some (PInt 0) ∧ window !! "avg_smoke" = Some (PInt 0)
       ∧ window !! "avg_gas" = Some (PInt 0) ∧ window !! "max_temp" = Some (PInt 0)).
Proof.
  unfold get_stats, h_bind, db_read, lift, h_ret.
  destruct (count_risk_bounds db) as (Hlow & Hmedium & Hhigh & Hle & Heq).
  assert (Hcount : length (select_since db cutoff)
                   = length (filter (λ r, String.leb cutoff (row_timestamp r) = true) db))
    by (unfold select_since; by rewrite length_fmap).
  assert (Hwindow : (length (select_since db cutoff) ≤ length db)%nat).
  { rewrite Hcount. apply length_filter. }
  destruct (match select_since db cutoff with [] => _ | _ :: _ => _ end)
    as [[[[avg_temp avg_smoke] avg_gas] max_temp] | e] eqn:Hstats; [| done].
  intros [= <-].
  eexists _, _, _, _, _, _, _. split; [reflexivity |].
  do 5 (split; [reflexivity |]).
  do 5 (split; [done |]).
  do 2 (split; [reflexivity |]).
  split; [by rewrite Hcount |]. split; [lia |].
  intros Hzero. destruct (select_since db cutoff); [| done].
  by injection Hstats as <- <- <- <-.
Qed.

(** X12: the latest-readings route only reads.  Without a limit argument it
    answers with at most 50 records; a limit argument that [int] rejects is a
    ValueError, a limit beyond 64 bits an OverflowError, and any other limit
    is the one the query uses; the body holds one record per row. *)
Theorem get_latest_outcome (device : option string) (db : Db) :
  get_latest device None db
    = (Ok (mkResponse 200 (PList (row_to_dict <$> latest_rows device 50 db))), db)
  ∧ (length (row_to_dict <$> latest_rows device 50 db) ≤ 50)%nat
  ∧ (∀ s, int_of_str s = None →
          get_latest device (Some s) db = (Raise ValueError, db))
  ∧ (∀ s limit, int_of_str s = Some limit →
          get_latest device (Some s) db
          = if int64_ok limit
            then (Ok (mkResponse 200
                        (PList (row_to_dict <$> latest_rows device limit db))), db)
            else (Raise OverflowError, db))
  ∧ (∀ limit, length (row_to_dict <$> latest_rows device limit db)
              = length (latest_rows device limit db)).
Proof.
  split; [done |]. split.
  { rewrite length_fmap, latest_rows_select. unfold select_latest.
    apply (sql_limit_length 50). lia. }
  split; [| split].
  - intros s Hs. unfold get_latest, h_bind, lift. simpl. by rewrite Hs.
  - intros s limit Hs. unfold get_latest, h_bind, lift, db_read, bind_int, h_ret.
    simpl. rewrite Hs. by destruct (int64_ok limit).
  - intros limit. apply length_fmap.
Qed.

Lemma error_body_inj (msg1 msg2 : string) :
  error_body msg1 = error_body msg2 → msg1 = msg2.
Proof.
  intros Heq.
  apply (f_equal (λ v, match v with PDict m => m !! "error" | _ => None end)) in Heq.
  unfold error_body in Heq. simpl in Heq. rewrite !lookup_insert_eq in Heq.
  by injection Heq.
Qed.

Lemma py_truthy_false (data : pyval) :
  py_truthy data = false
  ↔ data ∈ [PNone; PBool false; PInt 0; PFloat (S754_zero false);
            PFloat (S754_zero true); PStr ""; PList []; PDict ∅].
Proof.
  rewrite !elem_of_cons, elem_of_nil. split.
  - destruct data as [| [] | z | [[] | | |] | s | [] | d]; simpl; try done;
      try (intros _; tauto).
    + intros ->%negb_false_iff%Z.eqb_eq. tauto.
    + intros ->%negb_false_iff%String.eqb_eq. tauto.
    + intros ->%negb_false_iff%Nat.eqb_eq%map_size_empty_iff. tauto.
  - intros [-> | [-> | [-> | [-> | [-> | [-> | [-> | [-> | []]]]]]]]]; done.
Qed.

(** X13: the payloads answered with "No JSON body" are exactly the falsy
    ones: null, false, 0, 0.0 and -0.0, the empty string, the empty array and
    the empty object. *)
Theorem no_json_body_iff_falsy (G : Globals) (ts : string) (data : pyval) (db : Db) :
  receive_sensor_data G ts data db
    = (Ok (mkResponse 400 (error_body "No JSON body")), db)
  ↔ data ∈ [PNone; PBool false; PInt 0; PFloat (S754_zero false);
            PFloat (S754_zero true); PStr ""; PList []; PDict ∅].
Proof.
  rewrite <- py_truthy_false. split.
  - intros Hresp. destruct (py_truthy data) eqn:Htruthy; [exfalso | done].
    destruct (first_missing ["device_id"; "temperature"; "smoke"; "gas"] data)
      as [[field |] | e] eqn:Hmissing.
    + unfold receive_sensor_data, h_bind, lift in Hresp.
      rewrite Htruthy, Hmissing in Hresp. cbn [negb h_ret] in Hresp.
      apply (f_equal (λ p, match p.1 with Ok r => body r | Raise _ => PNone end))
        in Hresp.
      apply error_body_inj in Hresp. discriminate Hresp.
    + destruct data as [| | | | | | d];
        try (unfold receive_sensor_data, h_bind, lift in Hresp;
             rewrite Htruthy, Hmissing in Hresp; discriminate Hresp).
      apply first_missing_dict_None in Hmissing
        as ([dev Hdev] & [vt Ht] & [vs Hs] & [vg Hg]).
      rewrite (receive_sensor_data_present _ _ _ _ _ _ _ _ Hdev Ht Hs Hg) in Hresp.
      destruct (ingest_outcome G ts dev vt vs vg db)
        as [[e He] | (? & ? & ? & ? & ? & ? & ? & _ & _ & _ & _ & _ & _ & Hrun)];
        rewrite Hresp in *; discriminate.
    + unfold receive_sensor_data, h_bind, lift in Hresp.
      by rewrite Htruthy, Hmissing in Hresp.
  - intros Htruthy. unfold receive_sensor_data. by rewrite Htruthy.
Qed.

End QueryRoutes.

Lemma get_stats_counts_witness :
  ∃ (snapshot distribution window : gmap string pyval) (low medium high count : Z),
    mkResponse 200 (PDict two_device_stats) = mkResponse 200 (PDict snapshot)
    ∧ snapshot !! "total_readings" = Some (PInt (Z.of_nat (length two_device_db)))
    ∧ snapshot !! "risk_distribution" = Some (PDict distribution)
    ∧ distribution !! "LOW" = Some (PInt low)
    ∧ distribution !! "MEDIUM" = Some (PInt medium)
    ∧ distribution !! "HIGH" = Some (PInt high)
    ∧ 0 ≤ low ∧ 0 ≤ medium ∧ 0 ≤ high
    ∧ low + medium + high ≤ Z.of_nat (length two_device_db)
    ∧ (Forall (λ r, row_risk_level r ∈ ["LOW"; "MEDIUM"; "HIGH"]) two_device_db →
       low + medium + high = Z.of_nat (length two_device_db))
    ∧ snapshot !! "last_24h" = Some (PDict window)
    ∧ window !! "count" = Some (PInt count)
    ∧ count = Z.of_nat (length (filter
                (λ r, String.leb "2024-04-30T12:00:00" (row_timestamp r) = true)
                two_device_db))
    ∧ 0 ≤ count ≤ Z.of_nat (length two_device_db)
    ∧ (count = 0 →
       window !! "avg_temp" = Some (PInt 0) ∧ window !! "avg_smoke" = Some (PInt 0)
       ∧ window !! "avg_gas" = Some (PInt 0) ∧ window !! "max_temp" = Some (PInt 0)).
Proof.
  refine (get_stats_counts (rt := example_runtime) initial_globals
            "2024-04-30T12:00:00" two_device_db
            (mkResponse 200 (PDict two_device_stats)) _).
  reflexivity.
Defined.

(** ** The probabilities mapping *)

Section Probabilities.
Context {rt : PyRuntime}.

Lemma foldl_insert_list_to_map {V W : Type} (h : V → W) (l : list (string * V))
    (acc : gmap string W) :
  NoDup (l.*1) →
  foldl (λ d '(k, v), <[k := h v]> d) acc l
  = list_to_map (prod_map id h <$> l) ∪ acc.
Proof.
  revert acc. induction l as [| [k v] l IH]; intros acc Hnodup.
  - simpl. by rewrite (left_id_L ∅ (∪)).
  - rewrite fmap_cons in Hnodup. apply NoDup_cons in Hnodup as [Hk Hnodup].
    cbn [foldl]. rewrite IH by done. rewrite fmap_cons. cbn [list_to_map foldr].
    simpl. rewrite <- insert_union_l. symmetry. apply insert_union_r.
    apply not_elem_of_list_to_map_1.
    by rewrite <- list_fmap_compose.
Qed.

Lemma zip_fst_sublist {A B : Type} (l : list A) (k : list B) :
  (zip l k).*1 `sublist_of` l.
Proof.
  revert k. induction l as [| x l IH]; intros [| y k]; simpl;
    [done | done | apply sublist_nil_l | by apply sublist_skip].
Qed.

(** X14: when the encoder's classes are distinct, the probabilities mapping of
    a response gives each class the rounded probability found at the class's
    own position, and holds no other key: classes beyond the end of the
    probability list are absent. *)
Theorem probabilities_by_position (le : LabelEncoder) (proba : list float) :
  NoDup (classes_ le) →
  (∀ i label p, classes_ le !! i = Some label → proba !! i = Some p →
     probabilities le proba !! label = Some (PFloat (py_round p 4)))
  ∧ (∀ label v, probabilities le proba !! label = Some v →
       ∃ i p, classes_ le !! i = Some label ∧ proba !! i = Some p
              ∧ v = PFloat (py_round p 4)).
Proof.
  intros Hnodup. unfold probabilities.
  assert (Hkeys : NoDup ((zip (classes_ le) proba).*1)).
  { eapply sublist_NoDup; [done | apply zip_fst_sublist]. }
  rewrite (foldl_insert_list_to_map (λ p, PFloat (py_round p 4))) by done.
  rewrite (right_id_L ∅ (∪)).
  assert (Hkeys' : NoDup ((prod_map id (λ p, PFloat (py_round p 4))
                             <$> zip (classes_ le) proba).*1)).
  { by rewrite <- list_fmap_compose. }
  split.
  - intros i label p Hlabel Hp. apply elem_of_list_to_map; [done |].
    apply list_elem_of_fmap. exists (label, p). split; [done |].
    apply list_elem_of_lookup. exists i. by apply lookup_zip_Some.
  - intros label v Hv. apply elem_of_list_to_map in Hv; [| done].
    apply list_elem_of_fmap in Hv as ([label' p] & [= -> ->] & Hin).
    apply list_elem_of_lookup in Hin as [i Hi].
    apply lookup_zip_Some in Hi as [? ?]. eauto.
Qed.

End Probabilities.

Lemma probabilities_by_position_witness :
  (∀ i label p, classes_ (label_encoder four_classes) !! i = Some label →
     [float_lit 1; float_lit 0] !! i = Some p →
     probabilities (rt := example_runtime) (label_encoder four_classes)
       [float_lit 1; float_lit 0] !! label
     = Some (PFloat (py_round (PyRuntime := example_runtime) p 4)))
  ∧ (∀ label v,
       probabilities (rt := example_runtime) (label_encoder four_classes)
         [float_lit 1; float_lit 0] !! label = Some v →
       ∃ i p, classes_ (label_encoder four_classes) !! i = Some label
              ∧ [float_lit 1; float_lit 0] !! i = Some p
              ∧ v = PFloat (py_round (PyRuntime := example_runtime) p 4)).
Proof.
  refine (probabilities_by_position (rt := example_runtime)
            (label_encoder four_classes) [float_lit 1; float_lit 0] _).
  apply (bool_decide_unpack _). reflexivity.
Defined.


(** ** Monotonicity of the rule-based classifier *)

Lemma cond_Zopp_mul (s : bool) (a b : Z) : cond_Zopp s (a * b) = cond_Zopp s a * b.
Proof. destruct s; simpl; lia. Qed.

Lemma leb_mul_pos (a b p : Z) : 0 < p → (a <=? b) = (a * p <=? b * p).
Proof.
  intros Hp. apply eq_true_iff_eq. rewrite !Z.leb_le.
  by apply Z.mul_le_mono_pos_r.
Qed.

Lemma float_ge_int_scaled (s : bool) (m : positive) (e n j : Z) :
  0 ≤ j → 0 ≤ e + j →
  float_ge_int (S754_finite s m e) n
  = (n * 2 ^ j <=? cond_Zopp s (Z.pos m * 2 ^ (e + j))).
Proof.
  intros Hj Hej. unfold float_ge_int. rewrite !Z.geb_leb.
  destruct (Z.leb_spec 0 e) as [He | He].
  - rewrite Z.pow_add_r, Z.mul_assoc by lia.
    rewrite (cond_Zopp_mul s (Z.pos m * 2 ^ e) (2 ^ j)).
    apply leb_mul_pos, Z.pow_pos_nonneg; lia.
  - replace j with (- e + (e + j)) at 1 by lia.
    rewrite (Z.pow_add_r 2 (- e)), Z.mul_assoc by lia.
    rewrite (cond_Zopp_mul s (Z.pos m) (2 ^ (e + j))).
    apply leb_mul_pos, Z.pow_pos_nonneg; lia.
Qed.

Lemma float_ge_int_mono (x y : float) (n : Z) :
  float_le x y = true → float_ge_int x n = true → float_ge_int y n = true.
Proof.
  destruct x as [sx | [] | | sx mx ex], y as [sy | [] | | sy my ey];
    try done; cbn [float_le].
  - (* zero, finite *)
    intros Hs%negb_true_iff Hx. subst sy. cbn [float_ge_int] in *.
    rewrite Z.geb_leb in Hx. apply Z.leb_le in Hx.
    assert (0 < 2 ^ ey ∨ ey < 0) as [Hpos | Hneg].
    { destruct (Z.leb_spec 0 ey); [left; apply Z.pow_pos_nonneg; lia | by right]. }
    + destruct (Z.leb_spec 0 ey); rewrite Z.geb_leb; apply Z.leb_le; simpl.
      * nia.
      * assert (0 < 2 ^ (- ey)) by (apply Z.pow_pos_nonneg; lia). nia.
    + destruct (Z.leb_spec 0 ey); [lia |]. rewrite Z.geb_leb. apply Z.leb_le.
      simpl. assert (0 < 2 ^ (- ey)) by (apply Z.pow_pos_nonneg; lia). nia.
  - (* finite, zero *)
    intros -> Hx. cbn [float_ge_int] in *. rewrite Z.geb_leb. apply Z.leb_le.
    destruct (Z.leb_spec 0 ex); rewrite Z.geb_leb in Hx; apply Z.leb_le in Hx;
      simpl in Hx.
    + assert (0 < 2 ^ ex) by (apply Z.pow_pos_nonneg; lia). nia.
    + assert (0 < 2 ^ (- ex)) by (apply Z.pow_pos_nonneg; lia). nia.
  - (* finite, finite *)
    intros Hle%Z.leb_le.
    set (k := - Z.min ex ey) in *. set (j := Z.max 0 k).
    rewrite !(float_ge_int_scaled _ _ _ n j) by lia.
    intros Hx%Z.leb_le. apply Z.leb_le.
    assert (Hshift : ∀ s m e, 0 ≤ e + k →
              cond_Zopp s (Z.pos m * 2 ^ (e + j))
              = cond_Zopp s (Z.pos m * 2 ^ (e + k)) * 2 ^ (j - k)).
    { intros s m e He. rewrite <- cond_Zopp_mul, <- Z.mul_assoc, <- Z.pow_add_r by lia.
      do 3 f_equal. lia. }
    rewrite !Hshift in * by lia.
    assert (0 < 2 ^ (j - k)) by (apply Z.pow_pos_nonneg; lia). nia.
Qed.

Lemma temperature_points_mono (t t' : float) :
  float_le t t' = true → temperature_points t ≤ temperature_points t'.
Proof.
  intros Hle. unfold temperature_points.
  pose proof (float_ge_int_mono t t' 60 Hle).
  pose proof (float_ge_int_mono t t' 45 Hle).
  destruct (float_ge_int t 60), (float_ge_int t 45),
    (float_ge_int t' 60), (float_ge_int t' 45); try lia; naive_solver.
Qed.

(** X15: the rule-based classifier is monotone: a reading that is at least as
    hot, as smoky and as gassy as another never gets a lower score, nor a
    lower risk code. *)
Theorem rule_predict_monotone (t t' : float) (s s' g g' : Z) :
  float_le t t' = true → s ≤ s' → g ≤ g' →
  rule_score t s g ≤ rule_score t' s' g'
  ∧ (rule_predict t s g).1.2 ≤ (rule_predict t' s' g').1.2.
Proof.
  intros Ht Hs Hg.
  assert (Hscore : rule_score t s g ≤ rule_score t' s' g').
  { rewrite !rule_score_sum. pose proof (temperature_points_mono t t' Ht).
    unfold smoke_points, gas_points. repeat case_decide; lia. }
  split; [done |]. unfold rule_predict.
  destruct (Z.leb_spec (rule_score t s g) 1), (Z.leb_spec (rule_score t s g) 3),
    (Z.leb_spec (rule_score t' s' g') 1), (Z.leb_spec (rule_score t' s' g') 3);
    simpl; lia.
Qed.

Lemma rule_predict_monotone_witness :
  rule_score (float_lit 50) 100 450 ≤ rule_score (float_lit 61) 320 450
  ∧ (rule_predict (float_lit 50) 100 450).1.2
    ≤ (rule_predict (float_lit 61) 320 450).1.2.
Proof.
  apply (rule_predict_monotone (float_lit 50) (float_lit 61) 100 320 450 450);
    [reflexivity | lia | lia].
Defined.

(** ** The order [max] uses *)

Ltac compare_cases :=
  repeat match goal with
         | |- context [PosDef.Pos.compare_cont Eq ?a ?b] =>
             change (PosDef.Pos.compare_cont Eq a b) with (Pos.compare a b)
         | H : context [PosDef.Pos.compare_cont Eq ?a ?b] |- _ =>
             change (PosDef.Pos.compare_cont Eq a b) with (Pos.compare a b) in H
         | |- context [Z.compare ?a ?b] => destruct (Z.compare_spec a b)
         | H : context [Z.compare ?a ?b] |- _ => destruct (Z.compare_spec a b)
         | |- context [Pos.compare ?a ?b] => destruct (Pos.compare_spec a b)
         | H : context [Pos.compare ?a ?b] |- _ => destruct (Pos.compare_spec a b)
         end.

(** If [b] is greater than [a] and [c] is not, then [c] is not greater than
    [b]: the comparison of floats is a total preorder apart from NaN. *)
Lemma float_gt_neg_trans (a b c : float) :
  float_gt b a = true → float_gt c a = false → float_gt c b = false.
Proof.
  unfold float_gt, SFltb, SFcompare.
  destruct a as [sa | sa | | sa ma ea], b as [sb | sb | | sb mb eb],
    c as [sc | sc | | sc mc ec];
    try destruct sa; try destruct sb; try destruct sc; try done;
    intros Hab Hac; compare_cases; simpl in *; try done; lia.
Qed.

Lemma float_gt_irrefl (x : float) : float_gt x x = false.
Proof.
  unfold float_gt, SFltb, SFcompare.
  destruct x as [s | s | | s m e]; try destruct s; try done;
    compare_cases; simpl; try done; lia.
Qed.

Lemma py_max_greatest (x : float) (xs : list float) :
  py_max x xs ∈ x :: xs ∧ ∀ t, t ∈ x :: xs → float_gt t (py_max x xs) = false.
Proof.
  unfold py_max.
  assert (Hinv : ∀ seen acc,
             acc ∈ seen → (∀ t, t ∈ seen → float_gt t acc = false) →
             let m := foldl (λ m y, if float_gt y m then y else m) acc xs in
             m ∈ seen ++ xs ∧ ∀ t, t ∈ seen ++ xs → float_gt t m = false).
  { induction xs as [| y xs IH]; intros seen acc Hacc Hseen.
    - simpl. by rewrite (right_id_L [] (++)).
    - cbn [foldl]. rewrite (cons_middle y seen xs), (assoc_L (++)).
      destruct (float_gt y acc) eqn:Hy; apply IH.
      + apply elem_of_app. right. by left.
      + intros t [Ht | ->%list_elem_of_singleton]%elem_of_app.
        * by apply (float_gt_neg_trans acc); [| apply Hseen].
        * apply float_gt_irrefl.
      + apply elem_of_app. by left.
      + intros t [Ht | ->%list_elem_of_singleton]%elem_of_app; [by apply Hseen | done]. }
  apply (Hinv [x] x); [by left |].
  intros t ->%list_elem_of_singleton. apply float_gt_irrefl.
Qed.

Section Window.
Context {rt : PyRuntime}.

(** X16: when some stored reading falls in the 24-hour window, the max_temp
    of a statistics snapshot is the temperature of a reading of the window,
    rounded to 2 places, and no reading of the window is hotter than that
    reading; the three averages are floats. *)
Theorem get_stats_max_temp (G : Globals) (cutoff : string) (db : Db)
    (snapshot : gmap string pyval) (r0 : Row) :
  (get_stats G cutoff db).1 = Ok (mkResponse 200 (PDict snapshot)) →
  r0 ∈ db → String.leb cutoff (row_timestamp r0) = true →
  ∃ (window : gmap string pyval) (hottest : Row) (avg_temp avg_smoke avg_gas : float),
    snapshot !! "last_24h" = Some (PDict window)
    ∧ hottest ∈ db ∧ String.leb cutoff (row_timestamp hottest) = true
    ∧ window !! "max_temp" = Some (PFloat (py_round (row_temperature hottest) 2))
    ∧ (∀ r, r ∈ db → String.leb cutoff (row_timestamp r) = true →
            float_gt (row_temperature r) (row_temperature hottest) = false)
    ∧ window !! "avg_temp" = Some (PFloat avg_temp)
    ∧ window !! "avg_smoke" = Some (PFloat avg_smoke)
    ∧ window !! "avg_gas" = Some (PFloat avg_gas).
Proof.
  intros Hstats Hr0 Hwindow.
  set (in_window := λ r : Row, String.leb cutoff (row_timestamp r) = true).
  assert (Hrecent : select_since db cutoff
                    = (λ r, (row_temperature r, row_smoke r, row_gas r))
                        <$> filter in_window db) by done.
  assert (Hin : r0 ∈ filter in_window db) by by apply list_elem_of_filter.
  unfold get_stats, h_bind, db_read, lift, h_ret in Hstats. rewrite Hrecent in Hstats.
  destruct (filter in_window db) as [| r rs] eqn:Hfilter; [by apply elem_of_nil in Hin |].
  rewrite fmap_cons in Hstats.
  destruct (float_div_int _ _) as [mean_temp |]; [| done].
  rewrite bind_Ok_l in Hstats.
  destruct (int_truediv (foldr Z.add 0 (_.*1.*2)) _) as [mean_smoke |]; [| done].
  rewrite bind_Ok_l in Hstats.
  destruct (int_truediv _ _) as [mean_gas |]; [| done].
  rewrite bind_Ok_l in Hstats. cbn [fst snd] in Hstats. injection Hstats as <-.
  rewrite <- !list_fmap_compose.
  destruct (py_max_greatest (row_temperature r) (row_temperature <$> rs))
    as [Hmax Hgreatest].
  rewrite <- fmap_cons in Hmax.
  apply list_elem_of_fmap in Hmax as (hottest & Hhottest & Hmem).
  assert (Hsub : ∀ x, x ∈ r :: rs ↔ in_window x ∧ x ∈ db)
    by (intros x; rewrite <- Hfilter; apply list_elem_of_filter).
  eexists _, hottest, _, _, _. split; [reflexivity |].
  split; [by apply Hsub |]. split; [by apply Hsub |].
  split; [simpl; by rewrite <- Hhottest |].
  split; [| done].
  intros x Hx Hxw. rewrite <- Hhottest. apply Hgreatest.
  rewrite <- fmap_cons. apply list_elem_of_fmap_2. by apply Hsub.
Qed.

End Window.

Lemma get_stats_max_temp_witness :
  ∃ (window : gmap string pyval) (hottest : Row) (avg_temp avg_smoke avg_gas : float),
    two_device_stats !! "last_24h" = Some (PDict window)
    ∧ hottest ∈ two_device_db
    ∧ String.leb "2024-04-30T12:00:00" (row_timestamp hottest) = true
    ∧ window !! "max_temp"
      = Some (PFloat (py_round (PyRuntime := example_runtime)
                        (row_temperature hottest) 2))
    ∧ (∀ r, r ∈ two_device_db →
            String.leb "2024-04-30T12:00:00" (row_timestamp r) = true →
            float_gt (row_temperature r) (row_temperature hottest) = false)
    ∧ window !! "avg_temp" = Some (PFloat avg_temp)
    ∧ window !! "avg_smoke" = Some (PFloat avg_smoke)
    ∧ window !! "avg_gas" = Some (PFloat avg_gas).
Proof.
  refine (get_stats_max_temp (rt := example_runtime) initial_globals
            "2024-04-30T12:00:00" two_device_db two_device_stats kitchen_row _ _ _).
  - reflexivity.
  - by left.
  - reflexivity.
Defined.


(** ** Loading the model *)

Section Startup.
Context {rt : PyRuntime}.

Lemma get_stats_model_field (G : Globals) (cutoff : string) (db : Db)
    (snapshot : gmap string pyval) :
  (get_stats G cutoff db).1 = Ok (mkResponse 200 (PDict snapshot)) →
  snapshot !! "model"
  = Some (if py_truthy (PDict (model_meta G)) then PDict (model_meta G)
          else PStr "rule-based").
Proof.
  unfold get_stats, h_bind, db_read, lift, h_ret.
  destruct (match select_since db cutoff with [] => _ | _ :: _ => _ end)
    as [[[[avg_temp avg_smoke] avg_gas] max_temp] | e]; [| done].
  by intros [= <-].
Qed.

(** X17: startup loads the model all or nothing.  When [load_model] returns
    from the initial globals, either there was no metadata file, no global
    was touched, every classification is the rule-based one and the
    statistics name the model "rule-based"; or the metadata was an object
    with model_name and test_accuracy, the three artifacts were all loaded,
    and the statistics echo the metadata.  Anything else ends the process
    with the exception raised. *)
Theorem load_model_all_or_nothing (dir : ModelDir) (G : Globals) :
  load_model dir initial_globals = Ok G →
  (meta_json dir = None ∧ G = initial_globals
   ∧ (∀ t s g, ml_predict G t s g = Ok (rule_predict t s g))
   ∧ (∀ cutoff db snapshot,
        (get_stats G cutoff db).1 = Ok (mkResponse 200 (PDict snapshot)) →
        snapshot !! "model" = Some (PStr "rule-based")))
  ∨ (∃ p sc le meta,
       meta_json dir = Some (Ok (PDict meta)) ∧ predictor_pkl dir = Ok p
       ∧ scaler_pkl dir = Ok sc ∧ label_encoder_pkl dir = Ok le
       ∧ G = {| predictor := Some p; scaler := Some sc; label_enc := Some le;
                model_meta := meta |}
       ∧ is_Some (meta !! "model_name") ∧ is_Some (meta !! "test_accuracy")
       ∧ (∀ cutoff db snapshot,
            (get_stats G cutoff db).1 = Ok (mkResponse 200 (PDict snapshot)) →
            snapshot !! "model" = Some (PDict meta))).
Proof.
  unfold load_model. destruct (meta_json dir) as [[meta | e] |]; [| done |].
  - rewrite bind_Ok_l. intros Hload. bind_inv Hload. right.
    destruct meta; try done. injection Hload as <-.
    unfold py_getitem in *.
    destruct (d !! "model_name") as [name |] eqn:Hname; [| done].
    destruct (d !! "test_accuracy") as [acc |] eqn:Hacc; [| done].
    eexists _, _, _, d. do 5 (split; [done |]). do 2 (split; [by eexists |]).
    intros cutoff db snapshot Hstats.
    rewrite (get_stats_model_field _ _ _ _ Hstats).
    cbn [model_meta]. by rewrite (dict_truthy d _ _ Hname).
  - intros [= <-]. left. do 2 (split; [done |]). split; [done |].
    intros cutoff db snapshot Hstats.
    by rewrite (get_stats_model_field _ _ _ _ Hstats).
Qed.

End Startup.

Lemma load_model_all_or_nothing_witness :
  load_model trained_model_dir initial_globals = Ok critical_globals
  ∧ load_model empty_model_dir initial_globals = Ok initial_globals
  ∧ ((meta_json trained_model_dir = None ∧ critical_globals = initial_globals
      ∧ (∀ t s g, ml_predict critical_globals t s g = Ok (rule_predict t s g))
      ∧ (∀ cutoff db snapshot,
           (get_stats (rt := example_runtime) critical_globals cutoff db).1
             = Ok (mkResponse 200 (PDict snapshot)) →
           snapshot !! "model" = Some (PStr "rule-based")))
     ∨ (∃ p sc le meta,
          meta_json trained_model_dir = Some (Ok (PDict meta))
          ∧ predictor_pkl trained_model_dir = Ok p
          ∧ scaler_pkl trained_model_dir = Ok sc
          ∧ label_encoder_pkl trained_model_dir = Ok le
          ∧ critical_globals
            = {| predictor := Some p; scaler := Some sc; label_enc := Some le;
                 model_meta := meta |}
          ∧ is_Some (meta !! "model_name") ∧ is_Some (meta !! "test_accuracy")
          ∧ (∀ cutoff db snapshot,
               (get_stats (rt := example_runtime) critical_globals cutoff db).1
                 = Ok (mkResponse 200 (PDict snapshot)) →
               snapshot !! "model" = Some (PDict meta)))).
Proof.
  split; [reflexivity |]. split; [reflexivity |].
  apply (load_model_all_or_nothing (rt := example_runtime) trained_model_dir
           critical_globals).
  reflexivity.
Defined.


(** ** Properties of the simulator *)

Section Simulator.
Context {rt : PyRuntime}.

Lemma capped_int (x : float) (cap n : Z) :
  0 ≤ cap →
  match py_min_float_int x cap with PFloat y => int_of_float y | _ => Ok cap end = Ok n →
  n ≤ cap.
Proof.
  intros Hcap. unfold py_min_float_int.
  destruct (int_lt_float cap x) eqn:Hlt; [by intros [= <-] |].
  destruct x as [s | s | | s m e]; simpl; try done; [by intros [= <-] |].
  intros [= <-]. simpl in Hlt.
  destruct (Z.leb_spec 0 e) as [He | He]; apply Z.ltb_ge in Hlt.
  - rewrite Z.shiftl_mul_pow2 by done. by destruct s.
  - rewrite <- (Z.opp_involutive e), Z.shiftl_opp_r, Z.shiftr_div_pow2 by lia.
    assert (0 < 2 ^ (- e)) by (apply Z.pow_pos_nonneg; lia).
    assert (0 ≤ Z.pos m / 2 ^ (- e)) by (apply Z.div_pos; lia).
    destruct s; simpl in *; [lia |].
    apply Z.div_le_upper_bound; lia.
Qed.

(** X18: whatever the step and the noise, a reading that
    [escalating_reading] returns has integer smoke and gas of at most 1200,
    and a temperature that is the integer 130 or the rounding of a float that
    130 does not lie below. *)
Theorem escalating_reading_is_capped (step : Z) (u_t u_s u_g : float)
    (payload : gmap string pyval) :
  escalating_reading step u_t u_s u_g = Ok payload →
  ∃ smoke gas,
    payload !! "smoke" = Some (PInt smoke) ∧ smoke ≤ 1200
    ∧ payload !! "gas" = Some (PInt gas) ∧ gas ≤ 1200
    ∧ (payload !! "temperature" = Some (PInt 130)
       ∨ ∃ t, payload !! "temperature" = Some (PFloat (py_round t 2))
              ∧ int_lt_float 130 t = false)
    ∧ dom payload = {["temperature"; "smoke"; "gas"]}.
Proof.
  unfold escalating_reading. intros Hpayload. bind_inv Hpayload.
  injection Hpayload as <-.
  apply capped_int in Ha3, Ha4; [| lia..].
  exists a3, a4. do 4 (split; [done |]). split.
  - unfold py_min_float_int. destruct (int_lt_float 130 _) eqn:Hlt; [by left |].
    right. by eexists.
  - simpl. rewrite !dom_insert_L, dom_empty_L. set_solver.
Qed.

Lemma float_ge_int_antitone (x : float) (n n' : Z) :
  n' ≤ n → float_ge_int x n = true → float_ge_int x n' = true.
Proof.
  intros Hn. destruct x as [s | s | | s m e]; simpl; try done.
  - rewrite !Z.geb_leb, !Z.leb_le. lia.
  - destruct (Z.leb_spec 0 e); rewrite !Z.geb_leb, !Z.leb_le; [lia |].
    assert (0 < 2 ^ (- e)) by (apply Z.pow_pos_nonneg; lia). nia.
Qed.

Lemma post_body_lookup (device : string) (payload : gmap string pyval) :
  payload !! "device_id" = None →
  post_body device payload !! "device_id" = Some (PStr device)
  ∧ ∀ k, k ≠ "device_id" → post_body device payload !! k = payload !! k.
Proof.
  intros Hdev. unfold post_body. split.
  - rewrite lookup_union_r by done. apply lookup_singleton_eq.
  - intros k Hk. rewrite lookup_union, lookup_singleton_ne by done.
    by destruct (payload !! k).
Qed.

(** X19: a normal reading that the simulator posts always passes the
    presence checks and the coercions of the ingestion route, and the
    rule-based strategy never calls it HIGH: with no model loaded the answer,
    if there is one, has status 200 and risk code 0 or 1; it is code 0 (LOW)
    when the rounded temperature is not 45 or more. *)
Theorem normal_reading_is_never_high (G : Globals) (ts device : string)
    (u : float) (smoke gas : Z) (db : Db) (resp : response) :
  predictor G = None → 50 ≤ smoke ≤ 280 → 80 ≤ gas ≤ 380 →
  (receive_sensor_data G ts (PDict (post_body device (normal_reading u smoke gas))) db).1
    = Ok resp →
  ∃ (b : gmap string pyval) (label : string) (code : Z),
    resp = mkResponse 200 (PDict b)
    ∧ b !! "risk_level" = Some (PStr label) ∧ b !! "risk_code" = Some (PInt code)
    ∧ (label, code, None) = rule_predict (py_round u 2) smoke gas
    ∧ ((label = "LOW" ∧ code = 0) ∨ (label = "MEDIUM" ∧ code = 1))
    ∧ (float_ge_int (py_round u 2) 45 = false → label = "LOW").
Proof.
  intros HG Hsmoke Hgas.
  destruct (post_body_lookup device (normal_reading u smoke gas)) as [Hdev Hother];
    [done |].
  rewrite (receive_sensor_data_present G ts _ db (PStr device)
             (PFloat (py_round u 2)) (PInt smoke) (PInt gas) Hdev);
    try (by rewrite Hother).
  rewrite (rule_based_ingest G ts device _ _ _ (py_round u 2) smoke gas db HG);
    try done.
  assert (Hscore : rule_score (py_round u 2) smoke gas
                   = temperature_points (py_round u 2)).
  { rewrite rule_score_sum. unfold smoke_points, gas_points.
    repeat case_decide; lia. }
  assert (Hbits : int64_ok smoke && int64_ok gas = true).
  { unfold int64_ok. rewrite !andb_true_iff, !Z.leb_le. lia. }
  rewrite Hbits. cbn [negb].
  assert (Hlabel : ∃ label code,
             rule_predict (py_round u 2) smoke gas = (label, code, None)
             ∧ ((label = "LOW" ∧ code = 0) ∨ (label = "MEDIUM" ∧ code = 1))
             ∧ (float_ge_int (py_round u 2) 45 = false → label = "LOW")).
  { unfold rule_predict. rewrite Hscore. unfold temperature_points.
    pose proof (float_ge_int_antitone (py_round u 2) 60 45) as Hanti.
    destruct (float_ge_int (py_round u 2) 60), (float_ge_int (py_round u 2) 45);
      try (by discriminate Hanti; [lia |]);
      simpl; eexists _, _; (split; [reflexivity |]);
      (split; [by (left + right) | done]). }
  destruct Hlabel as (label & code & -> & Hcases & Hlow).
  destruct (has_lone_surrogate device); [done |].
  destruct (negb (int64_ok (next_rowid db))); [done |].
  destruct (is_nan (py_round u 2)); [done |].
  intros [= <-]. by eexists _, label, code.
Qed.

End Simulator.

Lemma escalating_reading_is_capped_witness :
  ∃ smoke gas,
    step_3_reading !! "smoke" = Some (PInt smoke) ∧ smoke ≤ 1200
    ∧ step_3_reading !! "gas" = Some (PInt gas) ∧ gas ≤ 1200
    ∧ (step_3_reading !! "temperature" = Some (PInt 130)
       ∨ ∃ t, step_3_reading !! "temperature"
              = Some (PFloat (py_round (PyRuntime := example_runtime) t 2))
              ∧ int_lt_float 130 t = false)
    ∧ dom step_3_reading = {["temperature"; "smoke"; "gas"]}.
Proof.
  refine (escalating_reading_is_capped (rt := example_runtime) 3
            (S754_zero false) (S754_zero false) (S754_zero false)
            step_3_reading _).
  reflexivity.
Defined.

Lemma normal_reading_is_never_high_witness :
  ∃ (b : gmap string pyval) (label : string) (code : Z),
    mkResponse 200 (PDict (list_to_map
      [("status", PStr "ok"); ("risk_level", PStr "LOW"); ("risk_code", PInt 0)]))
    = mkResponse 200 (PDict b)
    ∧ b !! "risk_level" = Some (PStr label) ∧ b !! "risk_code" = Some (PInt code)
    ∧ (label, code, None)
      = rule_predict (py_round (PyRuntime := example_runtime) (float_lit 30) 2) 100 150
    ∧ ((label = "LOW" ∧ code = 0) ∨ (label = "MEDIUM" ∧ code = 1))
    ∧ (float_ge_int (py_round (PyRuntime := example_runtime) (float_lit 30) 2) 45
       = false → label = "LOW").
Proof.
  refine (normal_reading_is_never_high (rt := example_runtime) initial_globals
            "2024-05-01T10:00:00" "ESP32_01" (float_lit 30) 100 150 []
            (mkResponse 200 (PDict (list_to_map
               [("status", PStr "ok"); ("risk_level", PStr "LOW");
                ("risk_code", PInt 0)]))) _ _ _ _).
  - reflexivity.
  - lia.
  - lia.
  - reflexivity.
Defined.


(** ** Properties of model selection *)

Lemma int_lt_float_0 (x : float) :
  int_lt_float 0 x
  = match x with
    | S754_infinity false | S754_finite false _ _ => true
    | _ => false
    end.
Proof.
  destruct x as [s | [] | | [] m e]; simpl; try done.
  - destruct (0 <=? e); simpl; apply Z.ltb_ge; lia.
  - destruct (Z.leb_spec 0 e); simpl; apply Z.ltb_lt; [| lia].
    assert (0 < 2 ^ e) by (apply Z.pow_pos_nonneg; lia). nia.
Qed.

Lemma positive_beats_non_positive (best mean : float) :
  int_lt_float 0 best = true → int_lt_float 0 mean = false →
  float_gt mean best = false.
Proof.
  rewrite !int_lt_float_0. unfold float_gt, SFltb, SFcompare.
  destruct best as [| [] | | [] ? ?], mean as [| [] | | [] ? ?]; done.
Qed.

Lemma greater_than_positive (best mean : float) :
  int_lt_float 0 best = true → float_gt mean best = true →
  int_lt_float 0 mean = true.
Proof.
  rewrite !int_lt_float_0. unfold float_gt, SFltb, SFcompare.
  destruct best as [| [] | | [] ? ?], mean as [| [] | | [] ? ?]; done.
Qed.

(** X20: the selection loop of the training script keeps a candidate only
    when its mean accuracy is above 0: when no mean is, nothing is chosen
    (the name stays empty); otherwise the chosen name and score are those of
    one candidate, the score is above 0, and no candidate's mean is greater. *)
Theorem select_best_is_maximal (cv_means : list (string * float)) :
  match select_best cv_means with
  | (name, None) =>
      name = "" ∧ ∀ n mean, (n, mean) ∈ cv_means → int_lt_float 0 mean = false
  | (name, Some best) =>
      (name, best) ∈ cv_means ∧ int_lt_float 0 best = true
      ∧ ∀ n mean, (n, mean) ∈ cv_means → float_gt mean best = false
  end.
Proof.
  unfold select_best.
  set (step := λ '(best_name, best_score) '(name, mean), _).
  set (inv := λ (seen : list (string * float)) (st : string * option float),
         match st with
         | (name, None) =>
             name = "" ∧ ∀ n mean, (n, mean) ∈ seen → int_lt_float 0 mean = false
         | (name, Some best) =>
             (name, best) ∈ seen ∧ int_lt_float 0 best = true
             ∧ ∀ n mean, (n, mean) ∈ seen → float_gt mean best = false
         end).
  assert (Hinv : ∀ rest seen st, inv seen st → inv (seen ++ rest) (foldl step st rest)).
  { induction rest as [| [n mean] rest IH]; intros seen st Hst.
    - simpl. by rewrite (right_id_L [] (++)).
    - cbn [foldl]. rewrite (cons_middle (n, mean) seen rest), (assoc_L (++)).
      apply IH. destruct st as [name [best |]]; simpl.
      + destruct Hst as (Hin & Hpos & Hmax).
        destruct (float_gt mean best) eqn:Hgt.
        * split; [apply elem_of_app; right; by left |].
          split; [by apply (greater_than_positive best) |].
          intros n' m' [Hm' | [= -> ->]%list_elem_of_singleton]%elem_of_app.
          -- apply (float_gt_neg_trans best); [done | by apply (Hmax n')].
          -- apply float_gt_irrefl.
        * split; [apply elem_of_app; by left |]. split; [done |].
          intros n' m' [Hm' | [= -> ->]%list_elem_of_singleton]%elem_of_app;
            [by apply (Hmax n') | done].
      + destruct Hst as (-> & Hnone).
        destruct (int_lt_float 0 mean) eqn:Hgt.
        * split; [apply elem_of_app; right; by left |]. split; [done |].
          intros n' m' [Hm' | [= -> ->]%list_elem_of_singleton]%elem_of_app.
          -- apply positive_beats_non_positive; [done | by apply (Hnone n')].
          -- apply float_gt_irrefl.
        * split; [done |].
          intros n' m' [Hm' | [= -> ->]%list_elem_of_singleton]%elem_of_app;
            [by apply (Hnone n') | done]. }
  apply (Hinv cv_means [] ("", None)). split; [done |].
  intros n mean Hin. by apply elem_of_nil in Hin.
Qed.


(** ** The served record *)

(** X21: the record the latest-readings route serves for a row loses nothing
    of it: it holds exactly the eight column names, each with the row's own
    value, so two rows with the same record are the same row. *)
Theorem row_to_dict_faithful (r r' : Row) :
  (∃ record, row_to_dict r = PDict record
     ∧ dom record = {["id"; "device_id"; "timestamp"; "temperature"; "smoke";
                      "gas"; "risk_level"; "risk_code"]}
     ∧ record !! "id" = Some (PInt (row_id r))
     ∧ record !! "device_id" = Some (PStr (row_device_id r))
     ∧ record !! "timestamp" = Some (PStr (row_timestamp r))
     ∧ record !! "temperature" = Some (PFloat (row_temperature r))
     ∧ record !! "smoke" = Some (PInt (row_smoke r))
     ∧ record !! "gas" = Some (PInt (row_gas r))
     ∧ record !! "risk_level" = Some (PStr (row_risk_level r))
     ∧ record !! "risk_code" = Some (PInt (row_risk_code r)))
  ∧ (row_to_dict r = row_to_dict r' ↔ r = r').
Proof.
  split.
  - eexists. split; [reflexivity |]. split; [| done].
    simpl. rewrite !dom_insert_L, dom_empty_L. set_solver.
  - split; [| by intros ->].
    intros Heq.
    pose (field := λ (k : string) (v : pyval),
            match v with PDict d => d !! k | _ => None end).
    assert (Hfield : ∀ k, field k (row_to_dict r) = field k (row_to_dict r'))
      by (intros k; by rewrite Heq).
    pose proof (Hfield "id") as Hid.
    pose proof (Hfield "device_id") as Hdevice.
    pose proof (Hfield "timestamp") as Hts.
    pose proof (Hfield "temperature") as Htemp.
    pose proof (Hfield "smoke") as Hsmoke.
    pose proof (Hfield "gas") as Hgas.
    pose proof (Hfield "risk_level") as Hlevel.
    pose proof (Hfield "risk_code") as Hcode.
    change (Some (PInt (row_id r)) = Some (PInt (row_id r'))) in Hid.
    change (Some (PStr (row_device_id r)) = Some (PStr (row_device_id r'))) in Hdevice.
    change (Some (PStr (row_timestamp r)) = Some (PStr (row_timestamp r'))) in Hts.
    change (Some (PFloat (row_temperature r)) = Some (PFloat (row_temperature r')))
      in Htemp.
    change (Some (PInt (row_smoke r)) = Some (PInt (row_smoke r'))) in Hsmoke.
    change (Some (PInt (row_gas r)) = Some (PInt (row_gas r'))) in Hgas.
    change (Some (PStr (row_risk_level r)) = Some (PStr (row_risk_level r')))
      in Hlevel.
    change (Some (PInt (row_risk_code r)) = Some (PInt (row_risk_code r'))) in Hcode.
    clear Heq Hfield. destruct r, r'. simpl in *. congruence.
Qed.

Section Served.
Context {rt : PyRuntime}.

(** X22: a reading that ingestion has answered with status 200 is the first
    record the latest-readings route serves next (with no arguments): the
    record carries the next id, the server-side timestamp, and the risk level
    and risk code of the ingestion response. *)
Theorem ingested_reading_is_served (G : Globals) (ts : string) (data : pyval)
    (db db' : Db) (b : gmap string pyval) :
  receive_sensor_data G ts data db = (Ok (mkResponse 200 (PDict b)), db') →
  ∃ (record : gmap string pyval) (rest : list pyval),
    get_latest None None db'
      = (Ok (mkResponse 200 (PList (PDict record :: rest))), db')
    ∧ record !! "id" = Some (PInt (next_rowid db))
    ∧ record !! "timestamp" = Some (PStr ts)
    ∧ record !! "risk_level" = b !! "risk_level"
    ∧ record !! "risk_code" = b !! "risk_code".
Proof.
  intros Hin.
  destruct (receive_sensor_data_outcome G ts data db)
    as [[e He] | [[msg Hmsg] | (d & dev & vt & vs & vg & -> & _ & _ & _ & _ & Hrun)]];
    [congruence | congruence |].
  rewrite Hrun in Hin.
  destruct (ingest_outcome G ts dev vt vs vg db)
    as [[e He] | (temp & smoke & gas & label & code & proba & text
                  & _ & _ & _ & _ & _ & _ & Hrun')]; [congruence |].
  rewrite Hrun' in Hin. clear Hrun Hrun'.
  set (r := mkRow (next_rowid db) text ts (sqlite_real temp) smoke gas label code)
    in *.
  assert (Hb : b !! "risk_level" = Some (PStr label)
               ∧ b !! "risk_code" = Some (PInt code)).
  { destruct (add_probabilities_cases G proba
                (list_to_map [("status", PStr "ok"); ("risk_level", PStr label);
                              ("risk_code", PInt code)])) as [Hb | [ps Hb]];
      rewrite Hb in Hin; by injection Hin as <- _. }
  destruct Hb as [Hlevel Hcode].
  assert (Hdb' : db' = db ++ [r]) by congruence. clear Hin. subst db'.
  assert (Hhead : take 1 (merge_sort by_id_desc (db ++ [r])) = [r]).
  { apply merge_sort_head; [apply elem_of_app; right; by left |].
    intros x [Hx | ->%list_elem_of_singleton]%elem_of_app; [right | by left].
    by apply next_rowid_above. }
  destruct (merge_sort by_id_desc (db ++ [r])) as [| r1 sorted] eqn:Hsorted;
    [done |].
  injection Hhead as ->.
  eexists _, (row_to_dict <$> take 49 sorted). split.
  - assert (Hserved : get_latest None None (db ++ [r])
                      = (Ok (mkResponse 200
                               (PList (row_to_dict <$> latest_rows None 50 (db ++ [r])))),
                         db ++ [r])) by done.
    rewrite Hserved, latest_rows_select, decide_False by done.
    unfold select_latest. rewrite Hsorted. reflexivity.
  - by rewrite Hlevel, Hcode.
Qed.

End Served.

Lemma ingested_reading_is_served_witness :
  ∃ (record : gmap string pyval) (rest : list pyval),
    get_latest (rt := example_runtime) None None [hot_row]
      = (Ok (mkResponse 200 (PList (PDict record :: rest))), [hot_row])
    ∧ record !! "id" = Some (PInt (next_rowid []))
    ∧ record !! "timestamp" = Some (PStr "2024-05-01T10:00:00")
    ∧ record !! "risk_level"
      = (list_to_map [("status", PStr "ok"); ("risk_level", PStr "HIGH");
                      ("risk_code", PInt 2)] : gmap string pyval) !! "risk_level"
    ∧ record !! "risk_code"
      = (list_to_map [("status", PStr "ok"); ("risk_level", PStr "HIGH");
                      ("risk_code", PInt 2)] : gmap string pyval) !! "risk_code".
Proof.
  refine (ingested_reading_is_served (rt := example_runtime) initial_globals
            "2024-05-01T10:00:00" (PDict hot_payload) [] [hot_row]
            (list_to_map [("status", PStr "ok"); ("risk_level", PStr "HIGH");
                          ("risk_code", PInt 2)]) _).
  reflexivity.
Defined.


(** ** The theorems at concrete inputs *)

Lemma rule_predict_pure_total_witness :
  rule_predict (float_lit 60) 0 0 = rule_predict (float_lit 60) 0 0
  ∧ ml_predict initial_globals (float_lit 60) 0 0 = Ok (rule_predict (float_lit 60) 0 0)
  ∧ ml_predict initial_globals (float_lit 60) 0 0
    = ml_predict initial_globals (float_lit 60) 0 0
  ∧ ∃ label code,
      rule_predict (float_lit 60) 0 0 = (label, code, None) ∧ consistent label code.
Proof.
  apply (rule_predict_pure_total initial_globals initial_globals
           (float_lit 60) (float_lit 60) 0 0 0 0);
    reflexivity.
Defined.

